(** * Worker side of the distributed test protocol: [xdist/remote.py]

    A shallow embedding of [src/xdist/remote.py]: the warning serializer
    [serialize_warning_message], the hook methods of [WorkerInteractor] and
    its run loop [pytest_runtestloop] / [run_one_test].

    Python objects are a small inductive universe, dictionaries are finite
    maps with string keys, exceptions are an error monad, and the mutable
    [WorkerInteractor] is a record threaded through every method.  What the
    module only calls (execnet's [dumps], the builtin [repr], the hooks of
    the test framework) is an interface the definitions are parametrised
    over. *)

From stdpp Require Import gmap strings list fin_maps.

#[local] Set Warnings "-register-all,-clear-no-such-hyp".

(** ** Python values, exceptions *)

Module Py.

(** The values that cross the channel or sit in a warning record.
    [PyObject r] is any live object execnet has no encoding for (an open
    file, a user class instance); it carries nothing but an identity. *)
Inductive pyobj :=
| PyNone
| PyBool (b : bool)
| PyInt (n : Z)
| PyStr (s : string)
| PyTuple (xs : list pyobj)
| PyList (xs : list pyobj)
| PyDict (d : gmap string pyobj)
| PyObject (ident : string).

(** A class object, as far as the module looks at it. *)
Record pyclass := { __module__ : string; __name__ : string }.

Inductive exn :=
| EOFError
| IndexError
| KeyError
| AttributeError
| AssertionError.

(** A computation that returns or raises. *)
Inductive res (A : Type) :=
| Ok (a : A)
| Raise (e : exn).
Arguments Ok {A} a.
Arguments Raise {A} e.

#[global] Instance res_ret : MRet res := fun A a => Ok a.
#[global] Instance res_bind : MBind res := fun A B k m =>
  match m with
  | Ok a => k a
  | Raise e => Raise e
  end.

Definition res_map {A B} (f : A -> B) (m : res A) : res B :=
  match m with Ok a => Ok (f a) | Raise e => Raise e end.

(** [l[i]] on a Python list: a negative index counts from the end, an
    index outside [-len, len) raises [IndexError]. *)
Definition getitem {A} (l : list A) (i : Z) : res A :=
  let n := Z.of_nat (length l) in
  let j := if bool_decide (i < 0)%Z then (i + n)%Z else i in
  if bool_decide (0 ≤ j < n)%Z
  then match l !! Z.to_nat j with
       | Some a => Ok a
       | None => Raise IndexError
       end
  else Raise IndexError.

(** [list(range(n))] *)
Definition range (n : nat) : list Z := Z.of_nat <$> seq 0 n.

(** [l.pop(0)]: the head and the list that remains. *)
Definition pop0 {A} (l : list A) : res (A * list A) :=
  match l with
  | [] => Raise IndexError
  | a :: l' => Ok (a, l')
  end.

End Py.
Import Py.

(** ** What the module calls but does not define *)

(** execnet's [dumps] and the builtin [repr].  [dumps v = None] stands for
    [dumps(v)] raising [DumpError], the one failure the module handles. *)
Class Encoder := {
  dumps : pyobj -> option (list Byte.byte);
  repr : pyobj -> string;
}.

(** ** [warnings.WarningMessage] *)

(** An instance of a [Warning] subclass: its type, its [args] and what
    [str()] gives for it. *)
Record warning_instance := {
  w_type : pyclass;
  args : list pyobj;
  w_str : string;
}.

(** [WarningMessage.message] is a [Warning] instance or the bare text. *)
Inductive message_t :=
| MsgWarning (w : warning_instance)
| MsgText (s : string).

(** The record the warning-capture facility hands over: [message],
    [category] (a class, or [None]), the class-level tuple
    [_WARNING_DETAILS] of attribute names, and the value [getattr] gives for
    each of them. *)
Record WarningMessage := {
  message : message_t;
  category : option pyclass;
  _WARNING_DETAILS : list string;
  getattr : string -> pyobj;
}.

Section Serialization.
Context {E : Encoder}.

(** One round of the [for attr_name in warning_message._WARNING_DETAILS]
    loop. *)
Definition serialize_detail (warning_message : WarningMessage)
    (result : gmap string pyobj) (attr_name : string) : gmap string pyobj :=
  if bool_decide (attr_name ∈ ["message"; "category"]) then result
  else
    let attr := getattr warning_message attr_name in
    match dumps attr with
    | None => <[attr_name := PyStr (repr attr)]> result
    | Some _ => <[attr_name := attr]> result
    end.

Definition serialize_warning_message (warning_message : WarningMessage)
    : gmap string pyobj :=
  let '(message_module, message_class_name, message_str, message_args) :=
    match message warning_message with
    | MsgWarning w =>
        (PyStr (__module__ (w_type w)),
         PyStr (__name__ (w_type w)),
         PyStr (w_str w),
         match dumps (PyTuple (args w)) with
         | None => PyNone
         | Some _ => PyTuple (args w)
         end)
    | MsgText s => (PyNone, PyNone, PyStr s, PyNone)
    end in
  let '(category_module, category_class_name) :=
    match category warning_message with
    | Some c => (PyStr (__module__ c), PyStr (__name__ c))
    | None => (PyNone, PyNone)
    end in
  let result : gmap string pyobj :=
    <["message_str" := message_str]>
    (<["message_module" := message_module]>
    (<["message_class_name" := message_class_name]>
    (<["message_args" := message_args]>
    (<["category_module" := category_module]>
    (<["category_class_name" := category_class_name]> ∅))))) in
  foldl (serialize_detail warning_message) result
        (_WARNING_DETAILS warning_message).

End Serialization.

(** ** The test plan, reports, the channel *)

(** A collected test item; the module reads nothing of it but [nodeid]. *)
Record Item := { nodeid : string }.

(** A report of the test framework: what the module reads of it
    ([report.nodeid], [report.passed]); the rest stays with the framework
    and only shows through [pytest_report_to_serializable]. *)
Record Report := {
  report_nodeid : string;
  passed : bool;
  report_body : pyobj;
}.

(** [(name, kwargs)] as [sendevent] puts it on the channel. *)
Definition event : Type := string * gmap string pyobj.

(** [(name, kwargs)] as [channel.receive()] returns it.  The one argument a
    command carries is the list of indices of [runtests]. *)
Definition command : Type := string * gmap string (list Z).

(** The hooks the framework calls back, synchronously, while it runs one
    item. *)
Inductive hookcall :=
| call_logstart (nodeid : string) (location : pyobj)
| call_logreport (report : Report)
| call_logfinish (nodeid : string) (location : pyobj)
| call_collectreport (report : Report)
| call_warning_recorded (warning_message : WarningMessage)
    (when : string) (nodeid : string) (location : pyobj).

(** The test framework.  [pytest_runtest_protocol h item nextitem] gives
    the hook calls the framework makes while it runs [item], the duration
    the two [time.time()] readings around the call differ by, and the
    framework's next state. *)
Class Host := {
  host_state : Type;
  pytest_report_to_serializable : Report -> gmap string pyobj;
  pytest_runtest_protocol :
    host_state -> Item -> option Item -> list hookcall * pyobj * host_state;
}.

(** One call of [run_one_test] as seen from outside: the queue it was
    entered with, the item it handed to the framework and the lookahead. *)
Record run_record := {
  run_queue : list Z;
  run_index : Z;
  run_item : Item;
  run_nextitem : option Item;
}.

Section Worker.
Context {E : Encoder} {F : Host}.

(** The state of a [WorkerInteractor] together with the two things it
    acts on: the channel ([sent], oldest first) and the framework
    ([hook]).  [session_items] is [self.session.items], the plan, which is
    also the [session.items] the loop is called with.  [item_index] is
    [None] until [run_one_test] assigns the attribute.  [runs] records the
    calls of [run_one_test]; the code does not read it. *)
Record WorkerInteractor := {
  workerid : pyobj;
  testrunuid : pyobj;
  session_items : list Item;
  item_index : option Z;
  sent : list event;
  hook : host_state;
  runs : list run_record;
}.

Definition set_item_index (self : WorkerInteractor) (i : Z) :=
  {| workerid := workerid self; testrunuid := testrunuid self;
     session_items := session_items self; item_index := Some i;
     sent := sent self; hook := hook self; runs := runs self |}.

Definition set_hook (self : WorkerInteractor) (h : host_state) :=
  {| workerid := workerid self; testrunuid := testrunuid self;
     session_items := session_items self; item_index := item_index self;
     sent := sent self; hook := h; runs := runs self |}.

Definition record_run (self : WorkerInteractor) (r : run_record) :=
  {| workerid := workerid self; testrunuid := testrunuid self;
     session_items := session_items self; item_index := item_index self;
     sent := sent self; hook := hook self; runs := runs self ++ [r] |}.

Definition sendevent (self : WorkerInteractor) (name : string)
    (kwargs : gmap string pyobj) : WorkerInteractor :=
  {| workerid := workerid self; testrunuid := testrunuid self;
     session_items := session_items self; item_index := item_index self;
     sent := sent self ++ [(name, kwargs)]; hook := hook self;
     runs := runs self |}.

(** [self.item_index], an attribute that may not be there yet. *)
Definition get_item_index (self : WorkerInteractor) : res Z :=
  match item_index self with
  | Some i => Ok i
  | None => Raise AttributeError
  end.

Definition pytest_collection (self : WorkerInteractor) : WorkerInteractor :=
  sendevent self "collectionstart" ∅.

Definition pytest_collection_finish (self : WorkerInteractor)
    (topdir : string) : WorkerInteractor :=
  sendevent self "collectionfinish"
    (<["topdir" := PyStr topdir]>
     (<["ids" := PyList ((fun item => PyStr (nodeid item)) <$> session_items self)]> ∅)).

Definition pytest_runtest_logstart (self : WorkerInteractor)
    (nodeid : string) (location : pyobj) : WorkerInteractor :=
  sendevent self "logstart"
    (<["nodeid" := PyStr nodeid]> (<["location" := location]> ∅)).

Definition pytest_runtest_logfinish (self : WorkerInteractor)
    (nodeid : string) (location : pyobj) : WorkerInteractor :=
  sendevent self "logfinish"
    (<["nodeid" := PyStr nodeid]> (<["location" := location]> ∅)).

Definition pytest_runtest_logreport (self : WorkerInteractor)
    (report : Report) : res WorkerInteractor :=
  let data := pytest_report_to_serializable report in
  i ← get_item_index self;
  let data := <["item_index" := PyInt i]> data in
  let data := <["worker_id" := workerid self]> data in
  let data := <["testrun_uid" := testrunuid self]> data in
  i ← get_item_index self;
  item ← getitem (session_items self) i;
  if bool_decide (nodeid item = report_nodeid report)
  then Ok (sendevent self "testreport" (<["data" := PyDict data]> ∅))
  else Raise AssertionError.

Definition pytest_collectreport (self : WorkerInteractor)
    (report : Report) : WorkerInteractor :=
  if negb (passed report) then
    let data := pytest_report_to_serializable report in
    sendevent self "collectreport" (<["data" := PyDict data]> ∅)
  else self.

Definition pytest_warning_recorded (self : WorkerInteractor)
    (warning_message : WarningMessage) (when : string) (nodeid : string)
    (location : pyobj) : WorkerInteractor :=
  sendevent self "warning_recorded"
    (<["warning_message_data" := PyDict (serialize_warning_message warning_message)]>
     (<["when" := PyStr when]>
     (<["nodeid" := PyStr nodeid]>
     (<["location" := location]> ∅)))).

(** The framework calling back into the plugin. *)
Definition dispatch (self : WorkerInteractor) (c : hookcall)
    : res WorkerInteractor :=
  match c with
  | call_logstart n l => Ok (pytest_runtest_logstart self n l)
  | call_logreport r => pytest_runtest_logreport self r
  | call_logfinish n l => Ok (pytest_runtest_logfinish self n l)
  | call_collectreport r => Ok (pytest_collectreport self r)
  | call_warning_recorded m w n l => Ok (pytest_warning_recorded self m w n l)
  end.

(** The calls in order; an exception raised by one of them comes out of
    the framework's call unchanged. *)
Fixpoint dispatch_all (self : WorkerInteractor) (cs : list hookcall)
    : res WorkerInteractor :=
  match cs with
  | [] => Ok self
  | c :: cs => self ← dispatch self c; dispatch_all self cs
  end.

(** [worker_title] (the process title, set if it can be) and [self.log]
    leave no trace in the worker or on the channel and are left out, here
    and in the loop. *)
Definition run_one_test (self : WorkerInteractor) (torun : list Z)
    : res (WorkerInteractor * list Z) :=
  let items := session_items self in
  let queue := torun in
  '(i, torun) ← pop0 torun;
  let self := set_item_index self i in
  item ← getitem items i;
  nextitem ← match torun with
             | j :: _ => x ← getitem items j; Ok (Some x)
             | [] => Ok None
             end;
  let self := record_run self
    {| run_queue := queue; run_index := i;
       run_item := item; run_nextitem := nextitem |} in
  let '(calls, duration, h) := pytest_runtest_protocol (hook self) item nextitem in
  self ← dispatch_all self calls;
  let self := set_hook self h in
  i ← get_item_index self;
  Ok (sendevent self "runtest_protocol_complete"
        (<["item_index" := PyInt i]> (<["duration" := duration]> ∅)),
      torun).

(** [while len(torun) >= 2: self.run_one_test(torun)].  Every round pops
    one index, so [length torun] rounds are enough ([while_two_exit]). *)
Fixpoint while_two_fuel (fuel : nat) (self : WorkerInteractor)
    (torun : list Z) : res (WorkerInteractor * list Z) :=
  match fuel with
  | O => Ok (self, torun)
  | S fuel =>
      if bool_decide (2 ≤ length torun) then
        '(self, torun) ← run_one_test self torun;
        while_two_fuel fuel self torun
      else Ok (self, torun)
  end.

Definition while_two (self : WorkerInteractor) (torun : list Z) :=
  while_two_fuel (length torun) self torun.

Inductive control := Continue | Break.

(** [kwargs["indices"]] *)
Definition get_indices (kwargs : gmap string (list Z)) : res (list Z) :=
  match kwargs !! "indices" with
  | Some l => Ok l
  | None => Raise KeyError
  end.

(** The body of [while 1:] from the line after [receive]. *)
Definition loop_body (self : WorkerInteractor) (torun : list Z)
    (cmd : command) : res (control * WorkerInteractor * list Z) :=
  let '(name, kwargs) := cmd in
  torun ←
    (if bool_decide (name = "runtests") then
       indices ← get_indices kwargs; Ok (torun ++ indices)
     else if bool_decide (name = "runtests_all") then
       Ok (torun ++ range (length (session_items self)))
     else Ok torun);
  '(self, torun) ← while_two self torun;
  if bool_decide (name = "shutdown") then
    match torun with
    | _ :: _ =>
        '(self, torun) ← run_one_test self torun;
        Ok (Break, self, torun)
    | [] => Ok (Break, self, torun)
    end
  else Ok (Continue, self, torun).

(** [self.channel.receive()] on a channel that delivers [incoming] and is
    closed then: the next command and what is still to come, or
    [EOFError]. *)
Definition receive (incoming : list command) : res (command * list command) :=
  match incoming with
  | [] => Raise EOFError
  | cmd :: incoming => Ok (cmd, incoming)
  end.

(** [while 1:] over the commands the channel delivers before it is
    closed.  [receive] on the empty list raises [EOFError], which the loop
    turns into [return True]; the cases of [receive] are written out here
    for the recursion to be structural, [run_loop_receive] has the loop
    with [receive] in it.  The result is the worker, the local [torun] and
    the commands left unread. *)
Fixpoint run_loop (incoming : list command) (self : WorkerInteractor)
    (torun : list Z) : res (WorkerInteractor * list Z * list command) :=
  match incoming with
  | [] => Ok (self, torun, [])
  | cmd :: incoming =>
      '(ctl, self, torun) ← loop_body self torun cmd;
      match ctl with
      | Break => Ok (self, torun, incoming)
      | Continue => run_loop incoming self torun
      end
  end.

Definition pytest_runtestloop (self : WorkerInteractor)
    (incoming : list command) : res (bool * WorkerInteractor) :=
  '(self, _, _) ← run_loop incoming self [];
  Ok (true, self).

End Worker.

(** ** A concrete encoder, framework and session *)

Module Demo.

(** An encoder that knows the scalars and tuples and lists of them. *)
Fixpoint encodable (v : pyobj) : bool :=
  match v with
  | PyNone | PyBool _ | PyInt _ | PyStr _ => true
  | PyTuple xs | PyList xs => forallb encodable xs
  | PyDict _ | PyObject _ => false
  end.

#[local] Instance encoder : Encoder := {|
  dumps v := if encodable v then Some [] else None;
  repr v := match v with
            | PyObject ident => "<" +:+ ident +:+ ">"
            | PyNone => "None"
            | PyStr s => "'" +:+ s +:+ "'"
            | _ => "..."
            end;
|}.

Definition setup_call_teardown (item : Item) : list hookcall :=
  [call_logstart (nodeid item) PyNone;
   call_logreport {| report_nodeid := nodeid item; passed := true;
                     report_body := PyStr "setup" |};
   call_logreport {| report_nodeid := nodeid item; passed := true;
                     report_body := PyStr "call" |};
   call_logreport {| report_nodeid := nodeid item; passed := true;
                     report_body := PyStr "teardown" |};
   call_logfinish (nodeid item) PyNone].

(** A framework that reports the three phases of the item it runs and
    counts the items it ran. *)
#[local] Instance host : Host := {|
  host_state := nat;
  pytest_report_to_serializable r :=
    <["nodeid" := PyStr (report_nodeid r)]>
    (<["passed" := PyBool (passed r)]>
    (<["body" := report_body r]> ∅));
  pytest_runtest_protocol h item nextitem :=
    (setup_call_teardown item, PyInt 0, S h);
|}.

(** A framework that reports on the wrong item. *)
Definition confused_host : Host := {|
  host_state := unit;
  pytest_report_to_serializable r := ∅;
  pytest_runtest_protocol h item nextitem :=
    ([call_logreport {| report_nodeid := "elsewhere"; passed := true;
                        report_body := PyNone |}], PyInt 0, tt);
|}.

Definition items : list Item :=
  [ {| nodeid := "test_a" |}; {| nodeid := "test_b" |}; {| nodeid := "test_c" |} ].

Definition worker : WorkerInteractor := {|
  workerid := PyStr "gw0";
  testrunuid := PyStr "uid";
  session_items := items;
  item_index := None;
  sent := [];
  hook := 0;
  runs := [];
|}.

Definition confused_worker : @WorkerInteractor confused_host :=
  @Build_WorkerInteractor confused_host
    (PyStr "gw0") (PyStr "uid") items None [] tt [].

Definition runtests (indices : list Z) : command :=
  ("runtests", {["indices" := indices]}).
Definition runtests_all : command := ("runtests_all", ∅).
Definition shutdown : command := ("shutdown", ∅).

(** What a run of the loop leaves to look at: the indices drained, the
    lookahead of each, the queue and the unread commands. *)
Definition summary {F : Host} (r : res (WorkerInteractor * list Z * list command))
    : res (list (Z * option Item) * list Z * list command) :=
  res_map (fun '(w, q, u) =>
             ((fun r => (run_index r, run_nextitem r)) <$> runs w, q, u)) r.

(** A warning whose argument tuple holds a live object. *)
Definition warning : WarningMessage := {|
  message := MsgWarning {| w_type := {| __module__ := "builtins"; __name__ := "UserWarning" |};
                           args := [PyStr "hello"; PyObject "file"];
                           w_str := "('hello', <file>)" |};
  category := Some {| __module__ := "builtins"; __name__ := "UserWarning" |};
  _WARNING_DETAILS := ["message"; "category"; "filename"; "lineno"; "file"; "line"; "source"];
  getattr n :=
    if bool_decide (n = "filename") then PyStr "t.py"
    else if bool_decide (n = "lineno") then PyInt 3
    else if bool_decide (n = "file") then PyObject "stderr"
    else PyNone;
|}.

(** The worker after [runtests [0; 1; 2]], waiting at [receive]. *)
Definition after_runtests : WorkerInteractor :=
  Eval vm_compute in
    match run_loop [runtests [0; 1; 2]%Z] worker [] with
    | Ok (w, _, _) => w
    | Raise _ => worker
    end.

(** The worker after its first item, run with [test_b] in sight. *)
Definition after_first : WorkerInteractor :=
  Eval vm_compute in
    match run_one_test worker [0; 1]%Z with
    | Ok (w, _) => w
    | Raise _ => worker
    end.

(** The worker after [runtests_all] and [shutdown]. *)
Definition after_shutdown : WorkerInteractor :=
  Eval vm_compute in
    match run_loop [runtests_all; shutdown] worker [] with
    | Ok (w, _, _) => w
    | Raise _ => worker
    end.

(** The worker after [runtests [2; 0]] and [shutdown]. *)
Definition after_two : WorkerInteractor :=
  Eval vm_compute in
    match run_loop [runtests [2; 0]%Z; shutdown] worker [] with
    | Ok (w, _, _) => w
    | Raise _ => worker
    end.

Definition report_b : Report :=
  {| report_nodeid := "test_b"; passed := false; report_body := PyStr "call" |}.

End Demo.


(** ** The specification's vocabulary *)

(** The six keys every converted warning has. *)
Definition fixed_keys : gset string :=
  {[ "message_str"; "message_module"; "message_class_name";
     "message_args"; "category_module"; "category_class_name" ]}.

(** The additional attributes of a warning record: what
    [_WARNING_DETAILS] lists, the raw message and category apart. *)
Definition detail_names (warning_message : WarningMessage) : list string :=
  filter (fun n => n ∉ ["message"; "category"]) (_WARNING_DETAILS warning_message).

(** [str()] of the message of a warning record: of a [Warning] instance
    what its [__str__] gives, of a text the text. *)
Definition message_text (m : message_t) : string :=
  match m with
  | MsgWarning w => w_str w
  | MsgText s => s
  end.

(** [-len <= i < len]: [i] addresses an item of a plan of [n] items. *)
Definition valid_index (n : nat) (i : Z) : Prop :=
  (- Z.of_nat n ≤ i < Z.of_nat n)%Z.

(** The indices one command appends to the queue of a plan of [n] items. *)
Definition appended (n : nat) (cmd : command) : list Z :=
  if bool_decide (cmd.1 = "runtests") then default [] (cmd.2 !! "indices")
  else if bool_decide (cmd.1 = "runtests_all") then range n
  else [].

Definition is_shutdown (cmd : command) : bool := bool_decide (cmd.1 = "shutdown").

(** The indices appended by the commands up to the first [shutdown], in
    the order they were appended. *)
Fixpoint enqueued (n : nat) (cmds : list command) : list Z :=
  match cmds with
  | [] => []
  | cmd :: cmds =>
      appended n cmd ++ (if is_shutdown cmd then [] else enqueued n cmds)
  end.

(** Has a [shutdown] been among the commands? *)
Definition shutdown_received (cmds : list command) : bool := existsb is_shutdown cmds.

(** The names of the three commands the loop knows. *)
Definition known_command (name : string) : Prop :=
  name = "runtests" \/ name = "runtests_all" \/ name = "shutdown".

(** A [runtests] command comes with its [indices], each of them an index
    of the plan. *)
Definition wf_command (n : nat) (cmd : command) : Prop :=
  cmd.1 = "runtests" ->
  exists l, cmd.2 !! "indices" = Some l /\ Forall (valid_index n) l.

(** A framework in good order reports, while it runs an item, on that item
    only. *)
Definition reports_on_item (F : Host) : Prop :=
  forall h item nextitem r,
    call_logreport r ∈ (pytest_runtest_protocol h item nextitem).1.1 ->
    report_nodeid r = nodeid item.

(** Events of a given name. *)
Definition named (name : string) (evs : list event) : list event :=
  filter (fun ev => ev.1 = name) evs.

(** A run entered with at least two indices queued, and a run entered with
    one index queued and given no lookahead. *)
Definition eager (r : run_record) : Prop := 2 <= length (run_queue r).

Definition final (r : run_record) : Prop :=
  length (run_queue r) = 1 /\ run_nextitem r = None.

Section Vocabulary.
Context {E : Encoder} {F : Host}.
Implicit Types (self w : WorkerInteractor) (torun q : list Z)
  (evs : list event) (rs : list run_record).

(** What the loop stores under an attribute's name. *)
Definition detail_value (wm : WarningMessage) (attr_name : string) : pyobj :=
  match dumps (getattr wm attr_name) with
  | None => PyStr (repr (getattr wm attr_name))
  | Some _ => getattr wm attr_name
  end.

(** What a callback may change: it sends events, and nothing else. *)
Definition sends w w' evs : Prop :=
  sent w' = sent w ++ evs
  /\ session_items w' = session_items w
  /\ item_index w' = item_index w
  /\ runs w' = runs w
  /\ hook w' = hook w
  /\ workerid w' = workerid w
  /\ testrunuid w' = testrunuid w.

(** The names of the events the callbacks send, and with
    [run_one_test]'s own the names of all the loop sends. *)
Definition callback_event_names : list string :=
  ["logstart"; "testreport"; "logfinish"; "collectreport"; "warning_recorded"].

Definition run_event_names : list string :=
  "runtest_protocol_complete" :: callback_event_names.

(** A [testreport] event that carries the item index [i]. *)
Definition reports_index (i : Z) (ev : event) : Prop :=
  ev.1 = "testreport" ->
  exists d, ev.2 = {["data" := PyDict d]} /\ d !! "item_index" = Some (PyInt i).

Definition is_logreport (c : hookcall) : bool :=
  if c is call_logreport _ then true else false.

Definition logreports (cs : list hookcall) : list hookcall :=
  filter is_logreport cs.

(** A record of [run_one_test] that fits the plan: the index is the head
    of the queue the call was entered with, the item is the plan's at
    that index, the lookahead is the plan's item at the second entry of
    the queue, or [None] when there is no second entry. *)
Definition sound_run (items : list Item) (r : run_record) : Prop :=
  exists q,
    run_queue r = run_index r :: q
    /\ getitem items (run_index r) = Ok (run_item r)
    /\ match q with
       | [] => run_nextitem r = None
       | j :: _ => exists x, getitem items j = Ok x /\ run_nextitem r = Some x
       end.

(** The joint effect of some calls of [run_one_test]: the records [rs]
    and the events [evs] are added, the plan and the identity of the
    worker stay. *)
Definition ran w w' rs evs : Prop :=
  runs w' = runs w ++ rs
  /\ sent w' = sent w ++ evs
  /\ session_items w' = session_items w
  /\ workerid w' = workerid w
  /\ testrunuid w' = testrunuid w
  /\ Forall (sound_run (session_items w)) rs
  /\ Forall (fun ev => ev.1 ∈ run_event_names) evs.

(** The loop, started in [w0] with nothing queued, is back at [receive]
    after the commands [cmds], in state [w] and with [q] queued. *)
Inductive receives (w0 : WorkerInteractor)
  : list command -> WorkerInteractor -> list Z -> Prop :=
| receives_nil : receives w0 [] w0 []
| receives_snoc cmds w q cmd w' q' :
    receives w0 cmds w q ->
    loop_body w q cmd = Ok (Continue, w', q') ->
    receives w0 (cmds ++ [cmd]) w' q'.

(** The reading of "every index added to the queue is eventually drained
    exactly once, in the order added" for a run of the loop over [cmds]:
    when the loop has returned, the indices it ran are the indices the
    commands appended. *)
Definition every_index_drained w (cmds : list command) : Prop :=
  forall w' q' unread,
    run_loop cmds w [] = Ok (w', q', unread) ->
    run_index <$> runs w'
    = (run_index <$> runs w) ++ enqueued (length (session_items w)) cmds.

End Vocabulary.

(** ** The rest of the module: worker configuration *)

(** [config.option], the namespace of command-line options, by name. *)
Definition setup_config (option : gmap string pyobj) (basetemp : pyobj)
    : gmap string pyobj :=
  let option := <["looponfail" := PyBool false]> option in
  let option := <["usepdb" := PyBool false]> option in
  let option := <["dist" := PyStr "no"]> option in
  let option := <["distload" := PyBool false]> option in
  let option := <["numprocesses" := PyNone]> option in
  let option := <["maxprocesses" := PyNone]> option in
  <["basetemp" := basetemp]> option.

(** The options [setup_config] assigns. *)
Definition worker_options : list string :=
  ["looponfail"; "usepdb"; "dist"; "distload"; "numprocesses";
   "maxprocesses"; "basetemp"].

(** ** More vocabulary *)

(** The [ids] that [pytest_collection_finish] sends: the plan by name. *)
Definition collection_ids (items : list Item) : list pyobj :=
  (fun item => PyStr (nodeid item)) <$> items.

(** No additional attribute of the record goes by the name of one of the
    six fixed keys. *)
Definition no_collision (warning_message : WarningMessage) : Prop :=
  forall k, k ∈ fixed_keys -> k ∉ detail_names warning_message.


(** The event that closes the run of the item at index [i]. *)
Definition complete_event (i : Z) (duration : pyobj) : event :=
  ("runtest_protocol_complete",
   <["item_index" := PyInt i]> (<["duration" := duration]> ∅)).

(** One run as the channel shows it: the record of the run, the events the
    callbacks sent while the item ran, and the duration measured. *)
Definition run_block : Type := run_record * list event * pyobj.

Definition block_events (b : run_block) : list event :=
  b.1.2 ++ [complete_event (run_index b.1.1) b.2].

(** The events of a block are events of callbacks, and its [testreport]s
    carry the index of the run. *)
Definition block_ok (b : run_block) : Prop :=
  Forall (fun ev => ev.1 ∈ ["logstart"; "testreport"; "logfinish";
                            "collectreport"; "warning_recorded"]) b.1.2
  /\ Forall (fun ev => ev.1 = "testreport" ->
                       exists d, ev.2 = {["data" := PyDict d]}
                                 /\ d !! "item_index" = Some (PyInt (run_index b.1.1)))
            b.1.2.


Section Framework.
Context {F : Host}.

(** The state of the framework after it has run, one after the other, the
    items of the records [rs], each with the lookahead of its record. *)
Definition framework_after (h : host_state) (rs : list run_record) : host_state :=
  foldl (fun h r => (pytest_runtest_protocol h (run_item r) (run_nextitem r)).2)
        h rs.

(** What a stretch of the loop did, on the record, with the framework and
    on the channel: the records [rs] were added; the framework ran the
    items of [rs], in order, each with the lookahead of its record; and
    the channel got, for each record in order, the events of the
    callbacks and the closing event of the run. *)
Definition executed (w w' : WorkerInteractor) (rs : list run_record) : Prop :=
  runs w' = runs w ++ rs
  /\ hook w' = framework_after (hook w) rs
  /\ exists blocks : list run_block,
       (fun b => b.1.1) <$> blocks = rs
       /\ sent w' = sent w ++ concat (block_events <$> blocks)
       /\ Forall block_ok blocks.

End Framework.

(** ** More of the concrete session *)

Module DemoMore.

(** A warning all of which encodes. *)
Definition plain_warning : WarningMessage := {|
  message := MsgWarning {| w_type := {| __module__ := "builtins";
                                        __name__ := "DeprecationWarning" |};
                           args := [PyStr "old"];
                           w_str := "old" |};
  category := Some {| __module__ := "builtins"; __name__ := "DeprecationWarning" |};
  _WARNING_DETAILS := ["message"; "category"; "filename"; "lineno"; "file"; "line"];
  getattr n :=
    if bool_decide (n = "filename") then PyStr "t.py"
    else if bool_decide (n = "lineno") then PyInt 7
    else PyNone;
|}.

(** A text for a message, and no category. *)
Definition text_warning : WarningMessage := {|
  message := MsgText "plain text";
  category := None;
  _WARNING_DETAILS := ["message"; "category"; "filename"; "lineno"];
  getattr n :=
    if bool_decide (n = "filename") then PyStr "t.py"
    else if bool_decide (n = "lineno") then PyInt 1
    else PyNone;
|}.

End DemoMore.

(** ** Warning conversion *)

Section SerializationFacts.
Context {E : Encoder}.
Implicit Types (wm : WarningMessage) (result : gmap string pyobj).

Lemma serialize_detail_skip wm result n :
  n ∈ ["message"; "category"] -> serialize_detail wm result n = result.
Proof. intros Hn. unfold serialize_detail. by rewrite bool_decide_eq_true_2. Qed.

Lemma serialize_detail_store wm result n :
  n ∉ ["message"; "category"] ->
  serialize_detail wm result n = <[n := detail_value wm n]> result.
Proof.
  intros Hn. unfold serialize_detail, detail_value.
  rewrite bool_decide_eq_false_2 by done. by destruct (dumps _).
Qed.

Lemma details_dom wm l result :
  dom (foldl (serialize_detail wm) result l)
  = dom result ∪ list_to_set (filter (fun n => n ∉ ["message"; "category"]) l).
Proof.
  revert result. induction l as [|n l IH]; intros result; simpl.
  - set_solver.
  - rewrite IH. destruct (decide (n ∈ ["message"; "category"])) as [Hn|Hn].
    + rewrite serialize_detail_skip by done.
      rewrite filter_cons_False by (intros ?; contradiction). done.
    + rewrite serialize_detail_store by done.
      rewrite filter_cons_True by done. rewrite dom_insert_L. set_solver.
Qed.

Lemma details_lookup_in wm l result n :
  n ∈ filter (fun n => n ∉ ["message"; "category"]) l ->
  foldl (serialize_detail wm) result l !! n = Some (detail_value wm n).
Proof.
  revert result. induction l as [|x l IH] using rev_ind; intros result Hn.
  - by apply elem_of_nil in Hn.
  - rewrite foldl_app. simpl. rewrite filter_app in Hn.
    apply elem_of_app in Hn.
    destruct (decide (x ∈ ["message"; "category"])) as [Hx|Hx].
    + rewrite serialize_detail_skip by done. apply IH.
      destruct Hn as [Hn|Hn]; [done|].
      rewrite filter_cons_False in Hn by (intros ?; contradiction).
      by apply elem_of_nil in Hn.
    + rewrite serialize_detail_store by done.
      destruct (decide (x = n)) as [->|Hne].
      * by rewrite lookup_insert_eq.
      * rewrite lookup_insert_ne by done. apply IH.
        destruct Hn as [Hn|Hn]; [done|].
        rewrite filter_cons_True in Hn by done.
        apply list_elem_of_singleton in Hn. congruence.
Qed.

Lemma details_lookup_out wm l result n :
  n ∉ filter (fun n => n ∉ ["message"; "category"]) l ->
  foldl (serialize_detail wm) result l !! n = result !! n.
Proof.
  revert result. induction l as [|x l IH]; intros result Hn; simpl; [done|].
  destruct (decide (x ∈ ["message"; "category"])) as [Hx|Hx].
  - rewrite serialize_detail_skip by done. apply IH.
    by rewrite filter_cons_False in Hn by (intros ?; contradiction).
  - rewrite filter_cons_True in Hn by done.
    apply not_elem_of_cons in Hn as [Hne Hn].
    rewrite IH by done. rewrite serialize_detail_store by done.
    by rewrite lookup_insert_ne.
Qed.

(** C5: whatever the encoder accepts or rejects, the keys of a converted
    warning are the six fixed keys and the names of the additional
    attributes of the record (all of [_WARNING_DETAILS] but [message] and
    [category]); none of them is ever missing. *)
Theorem warning_keys_fixed wm :
  dom (serialize_warning_message wm)
  = fixed_keys ∪ list_to_set (detail_names wm).
Proof.
  unfold serialize_warning_message, detail_names, fixed_keys.
  destruct (message wm), (category wm); simpl;
    rewrite details_dom, !dom_insert_L, dom_empty_L; set_solver.
Qed.

(** C6: a value that fails to encode degrades, the key stays and the
    conversion returns: [message_args] is [None] when the arguments of
    the [Warning] fail to encode, and an additional attribute whose value
    fails to encode is stored as its [repr]. *)
Theorem unencodable_values_degrade wm :
  (forall w,
      message wm = MsgWarning w ->
      dumps (PyTuple (args w)) = None ->
      "message_args" ∉ detail_names wm ->
      serialize_warning_message wm !! "message_args" = Some PyNone)
  /\ (forall n,
         n ∈ detail_names wm ->
         dumps (getattr wm n) = None ->
         serialize_warning_message wm !! n
         = Some (PyStr (repr (getattr wm n)))).
Proof.
  split.
  - intros w Hm Hd Hn. unfold serialize_warning_message. rewrite Hm, Hd.
    destruct (category wm); simpl; by rewrite details_lookup_out.
  - intros n Hn Hd. unfold serialize_warning_message.
    destruct (message wm), (category wm); simpl;
      rewrite details_lookup_in by done; unfold detail_value; by rewrite Hd.
Qed.

(** C9: [message_str] of a converted warning is the string form of the
    record's message, be the message a [Warning] instance or a text. *)
Theorem message_str_is_text wm :
  "message_str" ∉ detail_names wm ->
  serialize_warning_message wm !! "message_str"
  = Some (PyStr (message_text (message wm))).
Proof.
  intros Hn. unfold serialize_warning_message, message_text.
  destruct (message wm), (category wm); simpl; by rewrite details_lookup_out.
Qed.

End SerializationFacts.

(** ** The hooks and one run *)

Section WorkerFacts.
Context {E : Encoder} {F : Host}.
Implicit Types (self w : WorkerInteractor) (torun q : list Z)
  (evs : list event) (rs : list run_record).

Lemma sends_nil w : sends w w [].
Proof. unfold sends. by rewrite app_nil_r. Qed.

Lemma sends_sendevent w name kwargs :
  sends w (sendevent w name kwargs) [(name, kwargs)].
Proof. by unfold sends. Qed.

Lemma sends_trans w1 w2 w3 evs1 evs2 :
  sends w1 w2 evs1 -> sends w2 w3 evs2 -> sends w1 w3 (evs1 ++ evs2).
Proof.
  unfold sends. intros (?&?&?&?&?&?&?) (?&?&?&?&?&?&?).
  rewrite app_assoc. repeat split; congruence.
Qed.

Lemma named_app name evs1 evs2 :
  named name (evs1 ++ evs2) = named name evs1 ++ named name evs2.
Proof. apply filter_app. Qed.

Lemma logreport_inv w r w' :
  pytest_runtest_logreport w r = Ok w' ->
  exists i item d,
    item_index w = Some i
    /\ getitem (session_items w) i = Ok item
    /\ report_nodeid r = nodeid item
    /\ d !! "item_index" = Some (PyInt i)
    /\ w' = sendevent w "testreport" {["data" := PyDict d]}.
Proof.
  unfold pytest_runtest_logreport, get_item_index.
  destruct (item_index w) as [i|] eqn:Hi; simpl; [|done].
  destruct (getitem (session_items w) i) as [item|] eqn:Hitem; simpl; [|done].
  case_bool_decide as Hid; [|done]. intros [= <-].
  exists i, item.
  eexists. split; [done|]. split; [done|]. split; [done|].
  split; [|reflexivity].
  do 2 (rewrite lookup_insert_ne by done). apply lookup_insert_eq.
Qed.

Lemma logreport_ok w r i item :
  item_index w = Some i ->
  getitem (session_items w) i = Ok item ->
  report_nodeid r = nodeid item ->
  exists w', pytest_runtest_logreport w r = Ok w'.
Proof.
  intros Hi Hitem Hid. unfold pytest_runtest_logreport, get_item_index.
  rewrite Hi. simpl. rewrite Hitem. simpl.
  rewrite bool_decide_eq_true_2 by done. eauto.
Qed.

Lemma collectreport_sends w r :
  sends w (pytest_collectreport w r)
    (if passed r then []
     else [("collectreport", {["data" := PyDict (pytest_report_to_serializable r)]})]).
Proof.
  unfold pytest_collectreport. destruct (passed r); simpl.
  - apply sends_nil.
  - apply sends_sendevent.
Qed.

Lemma dispatch_inv w c w' :
  dispatch w c = Ok w' ->
  exists evs,
    sends w w' evs
    /\ Forall (fun ev => ev.1 ∈ callback_event_names) evs
    /\ (forall i, item_index w = Some i -> Forall (reports_index i) evs)
    /\ length (named "testreport" evs)
       = (if c is call_logreport _ then 1 else 0).
Proof.
  destruct c as [n l|r|n l|r|m wh n l]; simpl.
  - intros [= <-]. eexists. split; [apply sends_sendevent|].
    split; [|split; [|done]].
    + repeat constructor; simpl; set_solver.
    + intros i _. by repeat constructor.
  - intros (i & item & d & Hi & _ & _ & Hd & ->)%logreport_inv.
    eexists. split; [apply sends_sendevent|].
    split; [|split; [|done]].
    + repeat constructor; simpl; set_solver.
    + intros i' Hi'. assert (i' = i) as -> by congruence.
      repeat constructor. intros _. eauto.
  - intros [= <-]. eexists. split; [apply sends_sendevent|].
    split; [|split; [|done]].
    + repeat constructor; simpl; set_solver.
    + intros i _. by repeat constructor.
  - intros [= <-]. eexists. split; [apply collectreport_sends|].
    destruct (passed r); (split; [|split; [|done]]).
    + constructor.
    + intros; constructor.
    + repeat constructor; simpl; set_solver.
    + intros i _. by repeat constructor.
  - intros [= <-]. eexists. split; [apply sends_sendevent|].
    split; [|split; [|done]].
    + repeat constructor; simpl; set_solver.
    + intros i _. by repeat constructor.
Qed.

Lemma dispatch_ok w c i item :
  item_index w = Some i ->
  getitem (session_items w) i = Ok item ->
  (forall r, c = call_logreport r -> report_nodeid r = nodeid item) ->
  exists w', dispatch w c = Ok w'.
Proof.
  intros Hi Hitem Hc. destruct c; simpl; eauto.
  eapply logreport_ok; eauto.
Qed.

Lemma dispatch_all_inv cs : forall w w',
  dispatch_all w cs = Ok w' ->
  exists evs,
    sends w w' evs
    /\ Forall (fun ev => ev.1 ∈ callback_event_names) evs
    /\ (forall i, item_index w = Some i -> Forall (reports_index i) evs)
    /\ length (named "testreport" evs) = length (logreports cs).
Proof.
  induction cs as [|c cs IH]; intros w w'; simpl.
  - intros [= <-]. exists []. split; [apply sends_nil|]. by repeat split.
  - destruct (dispatch w c) as [w1|] eqn:Hc; simpl; [|done].
    intros Hcs. apply dispatch_inv in Hc as (evs1 & Hs1 & Hn1 & Hi1 & Hl1).
    apply IH in Hcs as (evs2 & Hs2 & Hn2 & Hi2 & Hl2).
    exists (evs1 ++ evs2). split; [by eapply sends_trans|].
    split; [by apply Forall_app|]. split.
    + intros i Hi. apply Forall_app. split; [by apply Hi1|].
      apply Hi2. destruct Hs1 as (_&_&->&_). done.
    + rewrite named_app, length_app, Hl1, Hl2. unfold logreports.
      destruct c; simpl; try done.
      all: by rewrite filter_cons_False by (simpl; tauto).
Qed.

Lemma dispatch_all_ok cs : forall w i item,
  item_index w = Some i ->
  getitem (session_items w) i = Ok item ->
  (forall r, call_logreport r ∈ cs -> report_nodeid r = nodeid item) ->
  exists w', dispatch_all w cs = Ok w'.
Proof.
  induction cs as [|c cs IH]; intros w i item Hi Hitem Hcs; simpl; [eauto|].
  destruct (dispatch_ok w c i item) as [w1 Hc]; [done..| |].
  { intros r ->. apply Hcs. by left. }
  rewrite Hc. simpl.
  apply dispatch_inv in Hc as (evs & (_&Hit&Hix&_) & _).
  apply (IH w1 i item); [congruence|congruence|].
  intros r Hr. apply Hcs. by right.
Qed.

Lemma getitem_valid {A} (l : list A) (i : Z) :
  valid_index (length l) i <-> exists a, getitem l i = Ok a.
Proof.
  unfold valid_index, getitem. split.
  - intros Hi. rewrite bool_decide_eq_true_2 by (case_bool_decide; lia).
    match goal with |- context [l !! ?k] =>
      destruct (lookup_lt_is_Some_2 l k) as [a ->] end;
      [case_bool_decide; lia|eauto].
  - intros [a Ha]. case_bool_decide as Hj; [|done].
    case_bool_decide; lia.
Qed.

Lemma named_none (names : list string) name evs :
  Forall (fun ev => ev.1 ∈ names) evs -> name ∉ names -> named name evs = [].
Proof.
  intros Hevs Hname. unfold named.
  induction Hevs as [|ev evs Hev _ IH]; [done|].
  rewrite filter_cons_False; [done|]. simpl. intros <-. done.
Qed.

Lemma run_one_test_inv w i q w' q' :
  run_one_test w (i :: q) = Ok (w', q') ->
  q' = q
  /\ exists r evs,
      run_queue r = i :: q /\ run_index r = i
      /\ sound_run (session_items w) r
      /\ runs w' = runs w ++ [r]
      /\ session_items w' = session_items w
      /\ item_index w' = Some i
      /\ workerid w' = workerid w
      /\ testrunuid w' = testrunuid w
      /\ hook w' = (pytest_runtest_protocol (hook w) (run_item r) (run_nextitem r)).2
      /\ sent w' = sent w ++ evs
      /\ Forall (fun ev => ev.1 ∈ run_event_names) evs
      /\ Forall (reports_index i) evs
      /\ length (named "testreport" evs)
         = length (logreports
             (pytest_runtest_protocol (hook w) (run_item r) (run_nextitem r)).1.1)
      /\ named "runtest_protocol_complete" evs
         = [("runtest_protocol_complete",
             <["item_index" := PyInt i]>
             (<["duration" :=
                  (pytest_runtest_protocol (hook w) (run_item r) (run_nextitem r)).1.2]> ∅))].
Proof.
  unfold run_one_test. simpl.
  destruct (getitem (session_items w) i) as [item|] eqn:Hitem; simpl; [|done].
  set (nx := match q with
             | [] => Ok None
             | j :: _ => x ← getitem (session_items w) j; Ok (Some x)
             end).
  destruct nx as [nextitem|] eqn:Hnx; simpl; [|done].
  destruct (pytest_runtest_protocol (hook w) item nextitem)
    as [[calls duration] h] eqn:Hp.
  match goal with |- context [dispatch_all ?w0 calls] => set (w1 := w0) end.
  destruct (dispatch_all w1 calls) as [w2|] eqn:Hd; simpl; [|done].
  apply dispatch_all_inv in Hd as (evs & (Hs&Hit&Hix&Hr&Hh&Hw&Ht) & Hn & Hi & Hl).
  unfold get_item_index. simpl. rewrite Hix. simpl.
  intros [= <- <-]. split; [done|].
  eexists {| run_queue := i :: q; run_index := i; run_item := item;
             run_nextitem := nextitem |},
          (evs ++ [_]).
  simpl. rewrite Hp. simpl.
  split; [done|]. split; [done|]. split.
  { exists q. simpl. split; [done|]. split; [done|].
    subst nx. destruct q as [|j q]; [by inversion Hnx|].
    simpl in Hnx. destruct (getitem (session_items w) j) as [x|]; [|done].
    inversion Hnx. eauto. }
  split; [by rewrite Hr|]. split; [by rewrite Hit|]. split; [done|].
  split; [by rewrite Hw|]. split; [by rewrite Ht|]. split; [done|].
  split; [by rewrite Hs, app_assoc|].
  split.
  { apply Forall_app. split; [|repeat constructor; simpl; set_solver].
    eapply Forall_impl; [exact Hn|]. intros ev Hev. by right. }
  split. { apply Forall_app. split; [by apply Hi|]. by repeat constructor. }
  split.
  { rewrite named_app, length_app, Hl. unfold named.
    rewrite filter_cons_False by (simpl; done). simpl. lia. }
  rewrite named_app, (named_none callback_event_names _ _ Hn); [done|].
  unfold callback_event_names. set_solver.
Qed.

Lemma run_one_test_ok w i q :
  reports_on_item F ->
  valid_index (length (session_items w)) i ->
  (forall j, head q = Some j -> valid_index (length (session_items w)) j) ->
  exists w', run_one_test w (i :: q) = Ok (w', q).
Proof.
  intros HF [item Hitem]%getitem_valid Hq.
  unfold run_one_test. simpl. rewrite Hitem. simpl.
  assert (exists nextitem,
    match q with
    | [] => Ok None
    | j :: _ => x ← getitem (session_items w) j; Ok (Some x)
    end = Ok nextitem) as [nextitem ->].
  { destruct q as [|j q]; [eauto|].
    destruct (proj1 (getitem_valid _ _) (Hq j eq_refl)) as [x Hx].
    rewrite Hx. simpl. eauto. }
  simpl.
  destruct (pytest_runtest_protocol (hook w) item nextitem)
    as [[calls duration] h] eqn:Hp.
  match goal with |- context [dispatch_all ?w0 calls] => set (w1 := w0) end.
  destruct (dispatch_all_ok calls w1 i item) as [w2 Hd]; [done|done| |].
  { intros r Hr. apply (HF (hook w) item nextitem). by rewrite Hp. }
  rewrite Hd. simpl.
  apply dispatch_all_inv in Hd as (evs & (_&_&Hix&_) & _).
  unfold get_item_index. simpl. rewrite Hix. simpl. eauto.
Qed.

(** ** The loops *)

Lemma ran_nil w : ran w w [] [].
Proof. unfold ran. rewrite !app_nil_r. by repeat split. Qed.

Lemma ran_trans w1 w2 w3 rs1 rs2 evs1 evs2 :
  ran w1 w2 rs1 evs1 -> ran w2 w3 rs2 evs2 ->
  ran w1 w3 (rs1 ++ rs2) (evs1 ++ evs2).
Proof.
  unfold ran. intros (?&?&Hi&?&?&?&?) (?&?&?&?&?&?&?).
  rewrite !app_assoc. repeat split; try congruence.
  - apply Forall_app. split; [done|]. by rewrite <- Hi.
  - by apply Forall_app.
Qed.

Lemma run_one_test_ran w i q w' q' :
  run_one_test w (i :: q) = Ok (w', q') ->
  q' = q
  /\ exists r evs,
      ran w w' [r] evs /\ run_queue r = i :: q /\ run_index r = i.
Proof.
  intros (-> & r & evs & Hq & Hi & Hr & ?&?&?&?&?&?&?&?&?)%run_one_test_inv.
  split; [done|]. exists r, evs. split; [|done].
  unfold ran. repeat split; try done. by repeat constructor.
Qed.

Lemma while_two_fuel_inv fuel : forall w q w' q',
  length q <= fuel ->
  while_two_fuel fuel w q = Ok (w', q') ->
  exists rs evs,
    ran w w' rs evs
    /\ q = (run_index <$> rs) ++ q'
    /\ length q' < 2
    /\ Forall eager rs.
Proof.
  induction fuel as [|fuel IH]; intros w q w' q' Hfuel; simpl.
  - intros [= <- <-]. exists [], []. split; [apply ran_nil|].
    repeat split; [lia|done].
  - case_bool_decide as Hlen.
    + destruct q as [|i q]; [simpl in Hlen; lia|].
      destruct (run_one_test w (i :: q)) as [[w1 q1]|] eqn:Hrun; simpl; [|done].
      intros Hrest.
      apply run_one_test_ran in Hrun as (-> & r & evs1 & Hran1 & Hq & Hi).
      apply IH in Hrest as (rs & evs2 & Hran2 & Hrs & Hq' & Hbig);
        [|simpl in Hfuel; lia].
      exists (r :: rs), (evs1 ++ evs2). split; [by apply (ran_trans w w1 w' [r] rs)|].
      split; [rewrite fmap_cons, Hi; simpl; by f_equal|]. split; [done|].
      constructor; [unfold eager; by rewrite Hq|done].
    + intros [= <- <-]. exists [], []. split; [apply ran_nil|].
      repeat split; [lia|done].
Qed.

(** The loop stops only when fewer than two indices are queued: the fuel
    [while_two] hands to [while_two_fuel] never runs out. *)
Lemma while_two_exit w q w' q' :
  while_two w q = Ok (w', q') ->
  exists rs evs,
    ran w w' rs evs
    /\ q = (run_index <$> rs) ++ q'
    /\ length q' < 2
    /\ Forall eager rs.
Proof. apply while_two_fuel_inv. done. Qed.

Lemma while_two_fuel_ok fuel : forall w q,
  reports_on_item F ->
  Forall (valid_index (length (session_items w))) q ->
  exists w' q', while_two_fuel fuel w q = Ok (w', q').
Proof.
  induction fuel as [|fuel IH]; intros w q HF Hq; simpl; [eauto|].
  case_bool_decide as Hlen; [|eauto].
  destruct q as [|i q]; [simpl in Hlen; lia|].
  apply Forall_cons in Hq as [Hi Hq].
  destruct (run_one_test_ok w i q) as [w1 Hrun]; [done|done| |].
  { intros j Hj. destruct q; simplify_eq/=. by apply Forall_cons in Hq as [? _]. }
  rewrite Hrun. simpl. apply IH; [done|].
  apply run_one_test_ran in Hrun as (_ & r & evs & (_&_&->&_) & _). done.
Qed.

Lemma sound_run_final items r :
  sound_run items r -> length (run_queue r) = 1 -> final r.
Proof.
  intros (q & Hq & _ & Hnext) Hlen. split; [done|].
  rewrite Hq in Hlen. destruct q; [done|simpl in Hlen; lia].
Qed.

Lemma sound_run_eager items r :
  sound_run items r -> eager r ->
  exists j x, run_queue r !! 1 = Some j /\ getitem items j = Ok x
              /\ run_nextitem r = Some x.
Proof.
  unfold eager. intros (q & Hq & _ & Hnext) Hlen. rewrite Hq in Hlen |- *.
  destruct q as [|j q]; [simpl in Hlen; lia|].
  destruct Hnext as (x & ? & ?). by exists j, x.
Qed.

Lemma range_valid n : Forall (valid_index n) (range n).
Proof.
  unfold range. apply Forall_fmap, Forall_forall. intros i Hi%elem_of_seq.
  unfold valid_index. simpl. lia.
Qed.

(** The loops hold the last index back. *)
Lemma while_two_fuel_keeps_one fuel : forall w q w' q',
  while_two_fuel fuel w q = Ok (w', q') -> q <> [] -> q' <> [].
Proof.
  induction fuel as [|fuel IH]; intros w q w' q'; simpl.
  - by intros [= <- <-].
  - case_bool_decide as Hlen; [|by intros [= <- <-]].
    destruct q as [|i q]; [done|].
    destruct (run_one_test w (i :: q)) as [[w1 q1]|] eqn:Hrun; simpl; [|done].
    apply run_one_test_ran in Hrun as (-> & _).
    intros Hrest _. apply (IH _ _ _ _ Hrest).
    destruct q; [simpl in Hlen; lia|done].
Qed.

Lemma loop_body_inv w q cmd ctl w' q' :
  loop_body w q cmd = Ok (ctl, w', q') ->
  exists rs evs,
    ran w w' rs evs
    /\ (run_index <$> rs) ++ q' = q ++ appended (length (session_items w)) cmd
    /\ length q' < 2
    /\ if is_shutdown cmd
       then ctl = Break /\ q' = []
            /\ exists big fin, rs = big ++ fin /\ Forall eager big
                 /\ ((fin = []
                      /\ q ++ appended (length (session_items w)) cmd = [])
                     \/ exists r, fin = [r] /\ final r)
       else ctl = Continue /\ Forall eager rs.
Proof.
  destruct cmd as [name kwargs]. unfold loop_body, appended, is_shutdown. simpl.
  set (merged := if bool_decide (name = "runtests") then _ else _).
  destruct merged as [q1|] eqn:Hmerged; simpl; [|done].
  assert (q1 = q ++ (if bool_decide (name = "runtests")
                     then default [] (kwargs !! "indices")
                     else if bool_decide (name = "runtests_all")
                          then range (length (session_items w)) else [])) as Hq1.
  { subst merged. repeat case_bool_decide; simplify_eq/=.
    - unfold get_indices in Hmerged. destruct (kwargs !! "indices"); by simplify_eq/=.
    - done.
    - by rewrite app_nil_r. }
  clear Hmerged merged.
  destruct (while_two w q1) as [[w2 q2]|] eqn:Hwhile; simpl; [|done].
  pose proof Hwhile as (rs & evs & Hran & Hrs & Hlen & Hbig)%while_two_exit.
  destruct (bool_decide (name = "shutdown")) eqn:Hshut.
  - destruct q2 as [|i q2].
    + intros [= <- <- <-]. exists rs, evs. split; [done|].
      split; [by rewrite <- Hq1, Hrs|]. split; [simpl; lia|].
      split; [done|]. split; [done|]. exists rs, [].
      rewrite app_nil_r. split; [done|]. split; [done|]. left. split; [done|].
      rewrite <- Hq1. destruct q1 as [|j q1]; [done|].
      by destruct (while_two_fuel_keeps_one _ _ _ _ _ Hwhile).
    + destruct q2; [|simpl in Hlen; lia].
      destruct (run_one_test w2 [i]) as [[w3 q3]|] eqn:Hrun; simpl; [|done].
      intros [= <- <- <-].
      apply run_one_test_ran in Hrun as (-> & r & evs' & Hran' & Hq & Hi).
      exists (rs ++ [r]), (evs ++ evs'). split; [by eapply ran_trans|].
      split. { rewrite fmap_app, <- Hq1, Hrs. simpl. by rewrite Hi, app_nil_r. }
      split; [simpl; lia|]. split; [done|]. split; [done|].
      exists rs, [r]. split; [done|]. split; [done|]. right. exists r.
      split; [done|].
      destruct Hran' as (_&_&_&_&_&Hsound&_).
      apply Forall_cons in Hsound as [Hsound _].
      apply (sound_run_final _ _ Hsound). by rewrite Hq.
  - intros [= <- <- <-]. exists rs, evs. split; [done|].
    split; [by rewrite <- Hq1, Hrs|]. done.
Qed.

Lemma loop_body_ok w q cmd :
  reports_on_item F ->
  wf_command (length (session_items w)) cmd ->
  Forall (valid_index (length (session_items w))) q ->
  exists ctl w' q',
    loop_body w q cmd = Ok (ctl, w', q')
    /\ Forall (valid_index (length (session_items w'))) q'.
Proof.
  intros HF Hcmd Hq. destruct cmd as [name kwargs].
  unfold loop_body, wf_command in *. simpl in *.
  assert (exists q1, (if bool_decide (name = "runtests")
                      then indices ← get_indices kwargs; Ok (q ++ indices)
                      else if bool_decide (name = "runtests_all")
                           then Ok (q ++ range (length (session_items w)))
                           else Ok q) = Ok q1
                     /\ Forall (valid_index (length (session_items w))) q1)
    as (q1 & -> & Hq1).
  { repeat case_bool_decide.
    - destruct Hcmd as (l & Hl & Hvalid); [done|].
      unfold get_indices. rewrite Hl. simpl. eexists. split; [done|].
      by apply Forall_app.
    - eexists. split; [done|]. apply Forall_app. split; [done|apply range_valid].
    - eauto. }
  simpl.
  destruct (while_two_fuel_ok (length q1) w q1) as (w2 & q2 & Hwhile); [done..|].
  unfold while_two. rewrite Hwhile. simpl.
  apply while_two_fuel_inv in Hwhile as (rs & evs & Hran & Hrs & Hlen & _); [|done].
  assert (Hitems : session_items w2 = session_items w) by apply Hran.
  assert (Hq2 : Forall (valid_index (length (session_items w))) q2).
  { rewrite Hrs in Hq1. by apply Forall_app in Hq1 as [_ ?]. }
  destruct (bool_decide (name = "shutdown")).
  - destruct q2 as [|i q2].
    + do 3 eexists. split; [done|]. by rewrite Hitems.
    + destruct q2; [|simpl in Hlen; lia].
      destruct (run_one_test_ok w2 i []) as [w3 Hrun]; [done| |done|].
      { rewrite Hitems. by apply Forall_cons in Hq2 as [? _]. }
      rewrite Hrun. simpl. do 3 eexists. split; [done|]. constructor.
  - do 3 eexists. split; [done|]. by rewrite Hitems.
Qed.

Lemma loop_body_keeps_one w q cmd w' q' :
  loop_body w q cmd = Ok (Continue, w', q') ->
  q ++ appended (length (session_items w)) cmd <> [] -> q' <> [].
Proof.
  destruct cmd as [name kwargs]. unfold loop_body, appended. simpl.
  set (merged := if bool_decide (name = "runtests") then _ else _).
  destruct merged as [q1|] eqn:Hmerged; simpl; [|done].
  assert (q1 = q ++ (if bool_decide (name = "runtests")
                     then default [] (kwargs !! "indices")
                     else if bool_decide (name = "runtests_all")
                          then range (length (session_items w)) else [])) as Hq1.
  { subst merged. repeat case_bool_decide; simplify_eq/=.
    - unfold get_indices in Hmerged. destruct (kwargs !! "indices"); by simplify_eq/=.
    - done.
    - by rewrite app_nil_r. }
  rewrite <- Hq1. clear Hmerged merged Hq1.
  destruct (while_two w q1) as [[w2 q2]|] eqn:Hwhile; simpl; [|done].
  destruct (bool_decide (name = "shutdown")).
  - destruct q2; [done|]. by destruct (run_one_test _ _) as [[??]|].
  - intros [= <- <-]. by eapply while_two_fuel_keeps_one.
Qed.

Lemma shutdown_received_app cmds1 cmds2 :
  shutdown_received (cmds1 ++ cmds2)
  = shutdown_received cmds1 || shutdown_received cmds2.
Proof. apply existsb_app. Qed.

Lemma run_loop_inv cmds : forall w q w' q' unread,
  run_loop cmds w q = Ok (w', q', unread) ->
  exists rs evs,
    ran w w' rs evs
    /\ (run_index <$> rs) ++ q' = q ++ enqueued (length (session_items w)) cmds
    /\ (length q < 2 -> length q' < 2)
    /\ exists big fin,
         rs = big ++ fin /\ Forall eager big
         /\ if shutdown_received cmds
            then q' = []
                 /\ ((fin = []
                      /\ q ++ enqueued (length (session_items w)) cmds = [])
                     \/ exists r, fin = [r] /\ final r)
                 /\ exists pre c, cmds = pre ++ c :: unread
                      /\ is_shutdown c = true
                      /\ shutdown_received pre = false
            else fin = [] /\ unread = [].
Proof.
  induction cmds as [|cmd cmds IH]; intros w q w' q' unread; simpl.
  - intros [= <- <- <-]. exists [], []. split; [apply ran_nil|].
    split; [by rewrite app_nil_r|]. split; [done|]. by exists [], [].
  - destruct (loop_body w q cmd) as [[[ctl w1] q1]|] eqn:Hbody; simpl; [|done].
    pose proof Hbody as (rs1 & evs1 & Hran1 & Hq1 & Hlen1 & Hctl)%loop_body_inv.
    destruct (is_shutdown cmd) eqn:Hshut; simpl.
    + destruct Hctl as (-> & -> & big & fin & -> & Hbig & Hfin).
      intros [= <- <- <-]. exists (big ++ fin), evs1. split; [done|].
      split; [by rewrite (app_nil_r (appended _ _))|]. split; [simpl; lia|].
      exists big, fin. split; [done|]. split; [done|]. split; [done|].
      split; [by rewrite (app_nil_r (appended _ _))|]. by exists [], cmd.
    + destruct Hctl as (-> & Hbig1). intros Hrest.
      apply IH in Hrest as (rs2 & evs2 & Hran2 & Hq2 & Hlen2 & big & fin & -> & Hbig & Hfin).
      assert (Hitems : session_items w1 = session_items w) by apply Hran1.
      rewrite Hitems in Hq2.
      exists (rs1 ++ big ++ fin), (evs1 ++ evs2).
      split; [by eapply ran_trans|].
      split. { rewrite fmap_app, <- app_assoc, Hq2, !app_assoc. by rewrite Hq1. }
      split; [auto|].
      exists (rs1 ++ big), fin. split; [by rewrite app_assoc|].
      split; [by apply Forall_app|].
      destruct (shutdown_received cmds); [|done].
      destruct Hfin as (? & Hfin & pre & c & -> & ? & Hpre).
      split; [done|]. split.
      { destruct Hfin as [[-> Hnil]|?]; [left|by right]. split; [done|].
        rewrite Hitems in Hnil. apply app_eq_nil in Hnil as [-> Hnil].
        rewrite Hnil, app_nil_r.
        destruct (decide (q ++ appended (length (session_items w)) cmd = []))
          as [?|Hne]; [done|].
        by destruct (loop_body_keeps_one _ _ _ _ _ Hbody Hne). }
      exists (cmd :: pre), c.
      split; [done|]. split; [done|]. simpl. by rewrite Hshut.
Qed.

Lemma run_loop_ok cmds : forall w q,
  reports_on_item F ->
  Forall (wf_command (length (session_items w))) cmds ->
  Forall (valid_index (length (session_items w))) q ->
  exists w' q' unread, run_loop cmds w q = Ok (w', q', unread).
Proof.
  induction cmds as [|cmd cmds IH]; intros w q HF Hcmds Hq; simpl; [eauto|].
  apply Forall_cons in Hcmds as [Hcmd Hcmds].
  destruct (loop_body_ok w q cmd) as (ctl & w1 & q1 & Hbody & Hq1); [done..|].
  rewrite Hbody. simpl.
  destruct ctl; [|eauto].
  apply loop_body_inv in Hbody as (rs & evs & Hran & _).
  assert (Hitems : session_items w1 = session_items w) by apply Hran.
  apply IH; [done| |done]. by rewrite Hitems.
Qed.

Lemma run_loop_keeps_one cmds : forall w q w' q' unread,
  run_loop cmds w q = Ok (w', q', unread) ->
  shutdown_received cmds = false ->
  q ++ enqueued (length (session_items w)) cmds <> [] -> q' <> [].
Proof.
  induction cmds as [|cmd cmds IH]; intros w q w' q' unread; simpl.
  - intros [= <- <- <-] _. by rewrite app_nil_r.
  - destruct (loop_body w q cmd) as [[[ctl w1] q1]|] eqn:Hbody; simpl; [|done].
    intros Hrest [Hshut Hcmds]%orb_false_iff. rewrite Hshut.
    pose proof Hbody as (rs & evs & Hran & Hq1 & _ & Hctl)%loop_body_inv.
    rewrite Hshut in Hctl. destruct Hctl as [-> _].
    assert (Hitems : session_items w1 = session_items w) by apply Hran.
    intros Hne. apply (IH _ _ _ _ _ Hrest Hcmds). rewrite Hitems.
    destruct (decide (q ++ appended (length (session_items w)) cmd = [])) as [Hnil|Hnil].
    + rewrite app_assoc, Hnil in Hne. simpl in Hne.
      rewrite Hnil in Hq1. apply app_eq_nil in Hq1 as [_ ->]. done.
    + apply (loop_body_keeps_one _ _ _ _ _ Hbody) in Hnil.
      destruct q1; [done|]. done.
Qed.

(** ** The loop at [receive] *)

(** The loop as the source has it: [receive], and [return True] on
    [EOFError]. *)
Lemma run_loop_receive incoming w q :
  run_loop incoming w q
  = match receive incoming with
    | Raise EOFError => Ok (w, q, [])
    | Raise e => Raise e
    | Ok (cmd, incoming) =>
        '(ctl, w, q) ← loop_body w q cmd;
        match ctl with
        | Break => Ok (w, q, incoming)
        | Continue => run_loop incoming w q
        end
    end.
Proof. by destruct incoming. Qed.

Lemma while_two_short w q : length q < 2 -> while_two w q = Ok (w, q).
Proof.
  intros Hlen. unfold while_two. destruct (length q) eqn:Hl; [done|].
  simpl. rewrite bool_decide_eq_false_2; [done|lia].
Qed.

Lemma receives_run_loop w0 cmds w q rest :
  receives w0 cmds w q ->
  run_loop (cmds ++ rest) w0 [] = run_loop rest w q.
Proof.
  intros Hrec. revert rest.
  induction Hrec as [|cmds w q cmd w' q' _ IH Hbody]; intros rest; [done|].
  rewrite <- app_assoc. rewrite IH. simpl. rewrite Hbody. done.
Qed.

Lemma receives_inv w0 cmds w q :
  receives w0 cmds w q ->
  length q < 2
  /\ shutdown_received cmds = false
  /\ exists rs evs, ran w0 w rs evs.
Proof.
  induction 1 as [|cmds w q cmd w' q' _ (Hlen & Hshut & rs & evs & Hran) Hbody].
  - split; [simpl; lia|]. split; [done|]. exists [], []. apply ran_nil.
  - apply loop_body_inv in Hbody as (rs' & evs' & Hran' & _ & Hlen' & Hctl).
    split; [done|]. split.
    + rewrite shutdown_received_app, Hshut. simpl.
      destruct (is_shutdown cmd); [by destruct Hctl|done].
    + exists (rs ++ rs'), (evs ++ evs'). by eapply ran_trans.
Qed.

Lemma ran_no_internal_error w w' rs evs :
  ran w w' rs evs ->
  named "internal_error" (sent w') = named "internal_error" (sent w).
Proof.
  intros (_ & -> & _ & _ & _ & _ & Hnames).
  rewrite named_app, (named_none run_event_names _ _ Hnames).
  - by rewrite app_nil_r.
  - unfold run_event_names, callback_event_names. set_solver.
Qed.

End WorkerFacts.

(** ** From one run to the loop *)

Section LiftFacts.
Context {E : Encoder} {F : Host}.
Implicit Types (self w : WorkerInteractor) (torun q : list Z)
  (evs : list event) (rs : list run_record) (cmds : list command).

(** What holds of every run, and is kept by doing nothing and by doing one
    thing after another, holds of the loop. *)
Lemma run_loop_lift (R : WorkerInteractor -> WorkerInteractor -> Prop) :
  (forall w, R w w) ->
  (forall w1 w2 w3, R w1 w2 -> R w2 w3 -> R w1 w3) ->
  (forall w i q w' q', run_one_test w (i :: q) = Ok (w', q') -> R w w') ->
  forall cmds w q w' q' unread,
    run_loop cmds w q = Ok (w', q', unread) -> R w w'.
Proof.
  intros Hrefl Htrans Hrun.
  assert (Hwhile : forall fuel w q w' q',
             while_two_fuel fuel w q = Ok (w', q') -> R w w').
  { induction fuel as [|fuel IH]; intros w q w' q'; simpl.
    - intros [= <- <-]. apply Hrefl.
    - case_bool_decide; [|intros [= <- <-]; apply Hrefl].
      destruct q as [|i q]; [simpl in *; lia|].
      destruct (run_one_test w (i :: q)) as [[w1 q1]|] eqn:H1; simpl; [|done].
      intros H2. eapply Htrans; [by eapply Hrun|by eapply IH]. }
  assert (Hbody : forall w q cmd ctl w' q',
             loop_body w q cmd = Ok (ctl, w', q') -> R w w').
  { intros w q [name kwargs] ctl w' q'. unfold loop_body.
    destruct (if bool_decide (name = "runtests") then _ else _) as [q1|];
      simpl; [|done].
    destruct (while_two w q1) as [[w2 q2]|] eqn:H2; simpl; [|done].
    apply Hwhile in H2.
    destruct (bool_decide (name = "shutdown")).
    - destruct q2 as [|i q2]; [by intros [= <- <- <-]|].
      destruct (run_one_test w2 (i :: q2)) as [[w3 q3]|] eqn:H3; simpl; [|done].
      intros [= <- <- <-]. eapply Htrans; [done|by eapply Hrun].
    - by intros [= <- <- <-]. }
  induction cmds as [|cmd cmds IH]; intros w q w' q' unread; simpl.
  - intros [= <- <- <-]. apply Hrefl.
  - destruct (loop_body w q cmd) as [[[ctl w1] q1]|] eqn:H1; simpl; [|done].
    apply Hbody in H1. destruct ctl.
    + intros H2. eapply Htrans; [done|by eapply IH].
    + by intros [= <- <- <-].
Qed.

(** One run: the events of the callbacks, then the event of the run. *)
Lemma run_one_test_events w i q w' q' :
  run_one_test w (i :: q) = Ok (w', q') ->
  exists r cevs duration,
    runs w' = runs w ++ [r]
    /\ run_index r = i
    /\ sent w' = sent w ++ cevs
                 ++ [("runtest_protocol_complete",
                      <["item_index" := PyInt i]> (<["duration" := duration]> ∅))]
    /\ Forall (fun ev => ev.1 ∈ callback_event_names) cevs
    /\ Forall (reports_index i) cevs.
Proof.
  unfold run_one_test. simpl.
  destruct (getitem (session_items w) i) as [item|] eqn:Hitem; simpl; [|done].
  destruct (match q with
            | [] => Ok None
            | j :: _ => x ← getitem (session_items w) j; Ok (Some x)
            end) as [nextitem|]; simpl; [|done].
  destruct (pytest_runtest_protocol (hook w) item nextitem)
    as [[calls duration] h] eqn:Hp.
  match goal with |- context [dispatch_all ?w0 calls] => set (w1 := w0) end.
  destruct (dispatch_all w1 calls) as [w2|] eqn:Hd; simpl; [|done].
  apply dispatch_all_inv in Hd as (cevs & (Hs&Hit&Hix&Hr&Hh&Hw&Ht) & Hn & Hi & _).
  unfold get_item_index. simpl. rewrite Hix. simpl.
  intros [= <- <-]. eexists _, cevs, duration. simpl.
  rewrite Hr, Hs. simpl. split; [done|]. split; [done|].
  split; [by rewrite <- app_assoc|]. split; [done|]. by apply Hi.
Qed.

Lemma run_loop_executed cmds w q w' q' unread :
  run_loop cmds w q = Ok (w', q', unread) -> exists rs, executed w w' rs.
Proof.
  apply (run_loop_lift (fun w w' => exists rs, executed w w' rs)).
  - intros w0. exists []. split; [by rewrite app_nil_r|]. split; [done|].
    exists []. simpl. by rewrite app_nil_r.
  - intros w1 w2 w3 (rs1 & Hr1 & Hh1 & b1 & Hb1 & Hs1 & Hok1)
                    (rs2 & Hr2 & Hh2 & b2 & Hb2 & Hs2 & Hok2).
    exists (rs1 ++ rs2). split; [by rewrite Hr2, Hr1, app_assoc|].
    split; [unfold framework_after in *; by rewrite foldl_app, <- Hh1, <- Hh2|].
    exists (b1 ++ b2). rewrite !fmap_app, concat_app, Hb1, Hb2, Hs2, Hs1, app_assoc.
    split; [done|]. split; [done|]. by apply Forall_app.
  - intros w0 i q0 w1 q1 Hrun.
    pose proof Hrun as (_ & r & evs & _ & _ & _ & Hr & _ & _ & _ & _ & Hh & _)%run_one_test_inv.
    pose proof Hrun as (r' & cevs & duration & Hr' & Hi & Hs & Hn & Hidx)%run_one_test_events.
    assert (r' = r) as ->.
    { rewrite Hr in Hr'. apply app_inv_head in Hr'. by injection Hr'. }
    exists [r]. split; [done|]. split; [done|].
    exists [(r, cevs, duration)]. simpl. rewrite app_nil_r.
    unfold block_events, complete_event. simpl. rewrite Hi.
    split; [done|]. split; [done|]. constructor; [|done].
    split; simpl; [done|]. by rewrite Hi.
Qed.

End LiftFacts.

(** ** The run queue, the reports, the end of the stream *)

Section RunLoop.
Context {E : Encoder} {F : Host}.
Implicit Types (self w : WorkerInteractor) (torun q : list Z)
  (evs : list event) (rs : list run_record) (cmds : list command).

(** C3: one drain pops the head of the queue, and the lookahead handed to
    the framework with the item is the plan's item at the new head of the
    queue, or [None] when the pop emptied the queue. *)
Theorem lookahead_is_new_head w i q w' q' :
  run_one_test w (i :: q) = Ok (w', q') ->
  q' = q
  /\ exists item nextitem,
      getitem (session_items w) i = Ok item
      /\ runs w' = runs w ++ [{| run_queue := i :: q; run_index := i;
                                 run_item := item; run_nextitem := nextitem |}]
      /\ hook w' = (pytest_runtest_protocol (hook w) item nextitem).2
      /\ match q' with
         | [] => nextitem = None
         | j :: _ =>
             exists x, getitem (session_items w) j = Ok x /\ nextitem = Some x
         end.
Proof.
  intros (-> & r & evs & Hq & Hi & (q0 & Hq0 & Hitem & Hnext) & Hruns & _ & _
          & _ & _ & Hhook & _)%run_one_test_inv.
  split; [done|]. destruct r as [rq ri ritem rnext]. simpl in *. subst rq ri.
  assert (q0 = q) as -> by congruence.
  exists ritem, rnext. done.
Qed.

(** C7: a collection report that passed sends nothing; one that did not
    pass sends one [collectreport] event, with the serialized report. *)
Theorem collectreport_only_if_not_passed w r :
  sent (pytest_collectreport w r)
  = sent w ++
    (if passed r then []
     else [("collectreport",
            {["data" := PyDict (pytest_report_to_serializable r)]})]).
Proof. apply collectreport_sends. Qed.

(** C4: a [testreport] event is sent only with the index of the item
    marked as running and only for a report whose [nodeid] is the plan's
    at that index; and while [run_one_test] runs an item of the plan for a
    framework that reports on the item it runs, the assertion holds at
    every report: each report goes out as a [testreport] with the index of
    that item. *)
Theorem testreport_correlation :
  (forall w r w',
      pytest_runtest_logreport w r = Ok w' ->
      exists i item d,
        item_index w = Some i
        /\ getitem (session_items w) i = Ok item
        /\ report_nodeid r = nodeid item
        /\ d !! "item_index" = Some (PyInt i)
        /\ sent w' = sent w ++ [("testreport", {["data" := PyDict d]})])
  /\ (reports_on_item F ->
      forall w i q,
        valid_index (length (session_items w)) i ->
        (forall j, head q = Some j -> valid_index (length (session_items w)) j) ->
        exists w' r evs,
          run_one_test w (i :: q) = Ok (w', q)
          /\ runs w' = runs w ++ [r]
          /\ run_index r = i
          /\ getitem (session_items w) i = Ok (run_item r)
          /\ sent w' = sent w ++ evs
          /\ Forall (reports_index i) evs
          /\ length (named "testreport" evs)
             = length (logreports
                 (pytest_runtest_protocol (hook w) (run_item r) (run_nextitem r)).1.1)).
Proof.
  split.
  - intros w r w' (i & item & d & ? & ? & ? & ? & ->)%logreport_inv.
    by exists i, item, d.
  - intros HF w i q Hi Hq.
    destruct (run_one_test_ok w i q) as [w' Hrun]; [done..|].
    pose proof Hrun as (_ & r & evs & _ & ? & (q0 & _ & Hitem & _) & ? & _ & _
                        & _ & _ & _ & ? & _ & ? & ? & _)%run_one_test_inv.
    exists w', r, evs. repeat split; try done. congruence.
Qed.

(** C8: when [receive] finds the channel closed while the loop waits for
    a command, the loop returns [True] in the state it waits in: no event
    is sent, [internal_error] least of all, nothing is drained, nothing
    is raised. *)
Theorem end_of_stream_returns_cleanly w0 cmds w q :
  receives w0 cmds w q ->
  run_loop cmds w0 [] = Ok (w, q, [])
  /\ pytest_runtestloop w0 cmds = Ok (true, w)
  /\ named "internal_error" (sent w) = named "internal_error" (sent w0).
Proof.
  intros Hrec.
  assert (Hloop : run_loop cmds w0 [] = Ok (w, q, [])).
  { rewrite <- (app_nil_r cmds). by rewrite (receives_run_loop _ _ _ _ [] Hrec). }
  split; [done|]. split.
  - unfold pytest_runtestloop. by rewrite Hloop.
  - apply receives_inv in Hrec as (_ & _ & rs & evs & Hran).
    by eapply ran_no_internal_error.
Qed.

(** C10: a command of another name than [runtests], [runtests_all] and
    [shutdown] leaves the worker and the queue as they are, does not
    raise and does not end the loop, which goes back to [receive]; the
    queue holds fewer than two indices whenever the loop is there. *)
Theorem unknown_command_changes_nothing w0 cmds w q name kwargs :
  receives w0 cmds w q ->
  ~ known_command name ->
  length q < 2
  /\ loop_body w q (name, kwargs) = Ok (Continue, w, q)
  /\ receives w0 (cmds ++ [(name, kwargs)]) w q
  /\ forall rest,
      run_loop (cmds ++ (name, kwargs) :: rest) w0 []
      = run_loop (cmds ++ rest) w0 [].
Proof.
  intros Hrec Hname.
  pose proof Hrec as (Hlen & _)%receives_inv.
  assert (Hbody : loop_body w q (name, kwargs) = Ok (Continue, w, q)).
  { unfold known_command in Hname. unfold loop_body.
    rewrite !bool_decide_eq_false_2 by tauto. simpl.
    rewrite while_two_short by done. done. }
  split; [done|]. split; [done|]. split; [by econstructor|].
  intros rest. rewrite !(receives_run_loop _ _ _ _ _ Hrec).
  cbn [run_loop]. by rewrite Hbody.
Qed.

(** C2: every run of an item (the framework called with the plan's item
    at the head of the queue and its lookahead, the events of the run sent)
    is entered with at least two indices queued and is given a lookahead,
    but for at most one: the last run on [shutdown], entered with the one
    index the two-or-more loop left and given no lookahead ([None]); after
    it the queue is empty and the loop has ended, the commands behind
    [shutdown] unread.  The framework is called for these runs and no
    others, in this order, and the channel gets the events of these runs
    and no others. *)
Theorem runs_wait_for_two_or_shutdown cmds w w' q' unread :
  run_loop cmds w [] = Ok (w', q', unread) ->
  exists big fin,
    runs w' = runs w ++ big ++ fin
    /\ Forall (sound_run (session_items w)) (big ++ fin)
    /\ hook w' = framework_after (hook w) (big ++ fin)
    /\ (exists blocks : list run_block,
          (fun b => b.1.1) <$> blocks = big ++ fin
          /\ sent w' = sent w ++ concat (block_events <$> blocks)
          /\ Forall block_ok blocks)
    /\ Forall (fun r => eager r /\ run_nextitem r <> None) big
    /\ if shutdown_received cmds
       then ((fin = [] /\ enqueued (length (session_items w)) cmds = [])
             \/ exists r, fin = [r] /\ final r)
            /\ q' = []
            /\ exists pre c,
                cmds = pre ++ c :: unread
                /\ is_shutdown c = true
                /\ shutdown_received pre = false
       else fin = [] /\ unread = [].
Proof.
  intros Hloop.
  pose proof Hloop as (rs' & Hruns' & Hhook & Hblocks)%run_loop_executed.
  pose proof Hloop as (rs & evs & Hran & _ & _ & big & fin & -> & Hbig & Hfin)%run_loop_inv.
  assert (rs' = big ++ fin) as ->.
  { destruct Hran as [Hruns _]. rewrite Hruns in Hruns'.
    by apply app_inv_head in Hruns'. }
  exists big, fin. split; [apply Hran|]. split; [apply Hran|].
  split; [done|]. split; [done|]. split.
  - destruct Hran as (_ & _ & _ & _ & _ & Hsound & _).
    apply Forall_app in Hsound as [Hsound _].
    apply Forall_forall. intros r Hr. split; [by eapply Forall_forall in Hbig|].
    destruct (sound_run_eager (session_items w) r) as (j & x & _ & _ & ->);
      [by eapply Forall_forall in Hsound|by eapply Forall_forall in Hbig|done].
  - destruct (shutdown_received cmds); [|done].
    destruct Hfin as (? & ? & ?). done.
Qed.

(** C1, as amended: the indices run so far, followed by the indices still
    queued, are the indices the commands appended, in the order they were
    appended, and every run popped the head of the queue it was entered
    with.  When the loop returns on [shutdown], nothing is left in the
    queue: every index appended was run exactly once.  When it returns
    because the channel was closed, the last index appended is still in
    the queue and was never run.  A run entered with fewer than two
    indices queued is the last run of a loop that received [shutdown]. *)
Theorem drained_in_fifo_order cmds w w' q' unread :
  run_loop cmds w [] = Ok (w', q', unread) ->
  exists rs,
    runs w' = runs w ++ rs
    /\ Forall (sound_run (session_items w)) rs
    /\ (run_index <$> rs) ++ q' = enqueued (length (session_items w)) cmds
    /\ (if shutdown_received cmds then q' = []
        else length q' <= 1
             /\ (enqueued (length (session_items w)) cmds <> [] -> q' <> []))
    /\ forall r, r ∈ rs ->
         eager r \/ (shutdown_received cmds = true /\ last rs = Some r).
Proof.
  intros Hloop.
  pose proof Hloop as (rs & evs & Hran & Hq & Hlen & big & fin & -> & Hbig & Hfin)%run_loop_inv.
  exists (big ++ fin). split; [apply Hran|]. split; [apply Hran|].
  split; [done|]. split.
  - destruct (shutdown_received cmds) eqn:Hshut; [by destruct Hfin|].
    split; [simpl in Hlen; lia|]. intros Hne.
    by apply (run_loop_keeps_one _ _ _ _ _ _ Hloop Hshut).
  - intros r [Hr|Hr]%elem_of_app; [left; by eapply Forall_forall in Hbig|].
    right. destruct (shutdown_received cmds).
    + destruct Hfin as (_ & [[-> _]|(r' & -> & _)] & _); [by apply elem_of_nil in Hr|].
      apply list_elem_of_singleton in Hr as ->. split; [done|]. apply last_snoc.
    + destruct Hfin as [-> _]. by apply elem_of_nil in Hr.
Qed.

(** With a framework that reports on the item it runs and commands that
    name indices of the plan, the loop returns. *)
Lemma run_loop_returns cmds w :
  reports_on_item F ->
  Forall (wf_command (length (session_items w))) cmds ->
  exists w', pytest_runtestloop w cmds = Ok (true, w').
Proof.
  intros HF Hcmds.
  destruct (run_loop_ok cmds w []) as (w' & q' & unread & Hloop); [done..|].
  exists w'. unfold pytest_runtestloop. by rewrite Hloop.
Qed.

End RunLoop.

(** ** Further facts: the loop as a whole *)

Section LoopFacts.
Context {E : Encoder} {F : Host}.
Implicit Types (self w : WorkerInteractor) (torun q : list Z)
  (evs : list event) (rs : list run_record) (cmds : list command).

(** X1: a run ends with its [runtest_protocol_complete] event: whatever
    the callbacks sent while the item ran comes before it, and nothing
    comes after. *)
Theorem completion_event_closes_run w i q w' q' :
  run_one_test w (i :: q) = Ok (w', q') ->
  exists cevs duration,
    sent w' = sent w ++ cevs
              ++ [("runtest_protocol_complete",
                   <["item_index" := PyInt i]> (<["duration" := duration]> ∅))]
    /\ Forall (fun ev => ev.1 ∈ callback_event_names) cevs.
Proof.
  intros (r & cevs & duration & _ & _ & Hsent & Hnames & _)%run_one_test_events.
  by exists cevs, duration.
Qed.

(** X2: the events of the loop come run by run: for each item in the
    order run, the events the callbacks sent while it ran, every
    [testreport] among them with the index of that item, and then the
    [runtest_protocol_complete] of the item; events of two items are never
    mixed. *)
Theorem events_come_run_by_run cmds w w' q' unread :
  run_loop cmds w [] = Ok (w', q', unread) ->
  exists blocks : list run_block,
    runs w' = runs w ++ ((fun b => b.1.1) <$> blocks)
    /\ sent w' = sent w ++ concat (block_events <$> blocks)
    /\ Forall block_ok blocks.
Proof.
  apply (run_loop_lift (fun w w' =>
    exists blocks : list run_block,
      runs w' = runs w ++ ((fun b => b.1.1) <$> blocks)
      /\ sent w' = sent w ++ concat (block_events <$> blocks)
      /\ Forall block_ok blocks)).
  - intros w0. exists []. simpl. by rewrite !app_nil_r.
  - intros w1 w2 w3 (b1 & Hr1 & Hs1 & Hb1) (b2 & Hr2 & Hs2 & Hb2).
    exists (b1 ++ b2). rewrite Hr2, Hr1, Hs2, Hs1, !fmap_app, concat_app, !app_assoc.
    split; [done|]. split; [done|]. by apply Forall_app.
  - intros w0 i q0 w1 q1
      (r & cevs & duration & Hr & Hi & Hs & Hn & Hidx)%run_one_test_events.
    exists [(r, cevs, duration)]. simpl. rewrite app_nil_r.
    unfold block_events, complete_event. simpl. rewrite Hi.
    split; [done|]. split; [done|]. constructor; [|done].
    split; simpl; [done|]. by rewrite Hi.
Qed.

(** X3: the index marked as running is that of the last run: between two
    runs and after the loop, a report is checked against, and sent with,
    the index of the item run last; before the first run the mark is what
    it was. *)
Theorem item_index_is_last_run cmds w w' q' unread :
  run_loop cmds w [] = Ok (w', q', unread) ->
  exists rs,
    runs w' = runs w ++ rs
    /\ item_index w'
       = match last rs with
         | Some r => Some (run_index r)
         | None => item_index w
         end.
Proof.
  apply (run_loop_lift (fun w w' =>
    exists rs,
      runs w' = runs w ++ rs
      /\ item_index w'
         = match last rs with
           | Some r => Some (run_index r)
           | None => item_index w
           end)).
  - intros w0. exists []. by rewrite app_nil_r.
  - intros w1 w2 w3 (rs1 & Hr1 & Hi1) (rs2 & Hr2 & Hi2).
    exists (rs1 ++ rs2). rewrite Hr2, Hr1, app_assoc. split; [done|].
    rewrite Hi2. destruct rs2 as [|r rs2 _] using rev_ind.
    + by rewrite app_nil_r.
    + by rewrite app_assoc, !last_snoc.
  - intros w0 i q0 w1 q1
      (_ & r & evs & _ & Hi & _ & Hr & _ & Hix & _)%run_one_test_inv.
    exists [r]. simpl. by rewrite Hi.
Qed.








(** X7: a [runtests] command without [indices] ends the loop with
    [KeyError], wherever in the session it arrives; what is still queued is
    not run and the commands behind it are not read. *)
Theorem runtests_without_indices_raises w0 cmds w q kwargs rest :
  receives w0 cmds w q ->
  kwargs !! "indices" = None ->
  run_loop (cmds ++ ("runtests", kwargs) :: rest) w0 [] = Raise KeyError.
Proof.
  intros Hrec Hnone. rewrite (receives_run_loop _ _ _ _ _ Hrec).
  cbn [run_loop]. unfold loop_body, get_indices. by rewrite Hnone.
Qed.

(** X8: [pytest_runtest_logreport] sends its [testreport] exactly when an
    item is marked as running, its index is one of the plan and the report
    is for the item at that index.  Before the first run it raises
    [AttributeError]; for a report on another item it raises
    [AssertionError]. *)
Theorem logreport_succeeds_iff w r :
  ((exists w', pytest_runtest_logreport w r = Ok w')
   <-> exists i item,
        item_index w = Some i
        /\ getitem (session_items w) i = Ok item
        /\ nodeid item = report_nodeid r)
  /\ (item_index w = None -> pytest_runtest_logreport w r = Raise AttributeError)
  /\ (forall i item,
        item_index w = Some i ->
        getitem (session_items w) i = Ok item ->
        nodeid item <> report_nodeid r ->
        pytest_runtest_logreport w r = Raise AssertionError).
Proof.
  split; [split|split].
  - intros [w' (i & item & d & ? & ? & ? & _)%logreport_inv]. by exists i, item.
  - intros (i & item & ? & ? & ?). by eapply logreport_ok.
  - intros Hnone. unfold pytest_runtest_logreport, get_item_index. by rewrite Hnone.
  - intros i item Hi Hitem Hne. unfold pytest_runtest_logreport, get_item_index.
    rewrite Hi. simpl. rewrite Hitem. simpl. by rewrite bool_decide_eq_false_2.
Qed.

(** X9: the data of a [testreport] is the framework's serialization of the
    report with three entries set on top: [item_index], [worker_id] and
    [testrun_uid] are the worker's, whatever the serialization had under
    these names; every other entry is the serialization's. *)
Theorem testreport_data w r w' :
  pytest_runtest_logreport w r = Ok w' ->
  exists i d,
    item_index w = Some i
    /\ sent w' = sent w ++ [("testreport", {["data" := PyDict d]})]
    /\ d !! "item_index" = Some (PyInt i)
    /\ d !! "worker_id" = Some (workerid w)
    /\ d !! "testrun_uid" = Some (testrunuid w)
    /\ forall k, k ∉ ["item_index"; "worker_id"; "testrun_uid"] ->
         d !! k = pytest_report_to_serializable r !! k.
Proof.
  unfold pytest_runtest_logreport, get_item_index.
  destruct (item_index w) as [i|] eqn:Hi; simpl; [|done].
  destruct (getitem (session_items w) i) as [item|]; simpl; [|done].
  case_bool_decide; [|done]. intros [= <-].
  eexists i, _. split; [done|]. split; [reflexivity|].
  split; [by do 2 (rewrite lookup_insert_ne by done); rewrite lookup_insert_eq|].
  split; [by rewrite lookup_insert_ne by done; rewrite lookup_insert_eq|].
  split; [by rewrite lookup_insert_eq|].
  intros k Hk. rewrite !lookup_insert_ne; [done|set_solver..].
Qed.

Lemma getitem_fmap {A B} (f : A -> B) (l : list A) (i : Z) a :
  getitem l i = Ok a -> getitem (f <$> l) i = Ok (f a).
Proof.
  unfold getitem. rewrite length_fmap. case_bool_decide; [|done].
  rewrite list_lookup_fmap. by destruct (l !! _); intros [= <-].
Qed.

(** X10: the index in a [testreport] addresses, in the [ids] that
    [collectionfinish] sent for the plan, the [nodeid] of the report: the
    controller finds the test a report is about by index. *)
Theorem testreport_index_addresses_ids w0 topdir w r w' :
  session_items w = session_items w0 ->
  pytest_runtest_logreport w r = Ok w' ->
  exists kwargs i,
    sent (pytest_collection_finish w0 topdir)
    = sent w0 ++ [("collectionfinish", kwargs)]
    /\ kwargs !! "ids" = Some (PyList (collection_ids (session_items w0)))
    /\ item_index w = Some i
    /\ getitem (collection_ids (session_items w0)) i
       = Ok (PyStr (report_nodeid r)).
Proof.
  intros Hitems (i & item & d & Hi & Hitem & Hid & _)%logreport_inv.
  eexists _, i. split; [reflexivity|].
  split; [by rewrite lookup_insert_ne by done; rewrite lookup_insert_eq|].
  split; [done|]. unfold collection_ids. rewrite <- Hitems.
  rewrite (getitem_fmap _ _ _ _ Hitem). by rewrite Hid.
Qed.

Lemma loop_body_shutdown_breaks w q cmd ctl w' q' :
  is_shutdown cmd = true ->
  loop_body w q cmd = Ok (ctl, w', q') -> ctl = Break.
Proof.
  intros Hshut (rs & evs & _ & _ & _ & Hctl)%loop_body_inv.
  rewrite Hshut in Hctl. by destruct Hctl.
Qed.

(** X11: what the controller sends after [shutdown] is without effect:
    the loop returns the same, in the same state, whatever follows the
    first [shutdown]. *)
Theorem commands_after_shutdown_ignored pre cmd rest w :
  is_shutdown cmd = true ->
  pytest_runtestloop w (pre ++ cmd :: rest) = pytest_runtestloop w (pre ++ [cmd]).
Proof.
  intros Hshut. unfold pytest_runtestloop.
  assert (Hloop : forall w q,
    (run_loop (pre ++ cmd :: rest) w q ≫= fun '(w, _, _) => Ok (true, w))
    = (run_loop (pre ++ [cmd]) w q ≫= fun '(w, _, _) => Ok (true, w))).
  { induction pre as [|c pre IH]; intros w1 q1; simpl.
    - destruct (loop_body w1 q1 cmd) as [[[ctl w2] q2]|] eqn:Hbody; simpl; [|done].
      by rewrite (loop_body_shutdown_breaks _ _ _ _ _ _ Hshut Hbody).
    - destruct (loop_body w1 q1 c) as [[[ctl w2] q2]|]; simpl; [|done].
      destruct ctl; [apply IH|done]. }
  apply Hloop.
Qed.

End LoopFacts.

(** ** Further facts: warnings and worker options *)

Section ConversionFacts.
Context {E : Encoder}.
Implicit Types (wm : WarningMessage).

(** X12: what execnet can encode goes through unchanged: the argument
    tuple of a [Warning] under [message_args], and an additional attribute
    under its own name. *)
Theorem encodable_values_pass_through wm :
  (forall w bytes,
      message wm = MsgWarning w ->
      dumps (PyTuple (args w)) = Some bytes ->
      "message_args" ∉ detail_names wm ->
      serialize_warning_message wm !! "message_args" = Some (PyTuple (args w)))
  /\ (forall n bytes,
         n ∈ detail_names wm ->
         dumps (getattr wm n) = Some bytes ->
         serialize_warning_message wm !! n = Some (getattr wm n)).
Proof.
  split.
  - intros w bytes Hm Hd Hn. unfold serialize_warning_message. rewrite Hm, Hd.
    destruct (category wm); simpl; by rewrite details_lookup_out.
  - intros n bytes Hn Hd. unfold serialize_warning_message.
    destruct (message wm), (category wm); simpl;
      rewrite details_lookup_in by done; unfold detail_value; by rewrite Hd.
Qed.

(** X13: the fields that name where a warning comes from: module and
    class of the message are those of its type when the message is a
    [Warning] instance and [None] when it is a text, and a text has no
    [message_args]; module and class of the category are the category's,
    and [None] when the record has no category. *)
Theorem warning_origin_fields wm :
  no_collision wm ->
  serialize_warning_message wm !! "message_module"
  = Some (match message wm with
          | MsgWarning w => PyStr (__module__ (w_type w))
          | MsgText _ => PyNone
          end)
  /\ serialize_warning_message wm !! "message_class_name"
     = Some (match message wm with
             | MsgWarning w => PyStr (__name__ (w_type w))
             | MsgText _ => PyNone
             end)
  /\ (forall s, message wm = MsgText s ->
        serialize_warning_message wm !! "message_args" = Some PyNone)
  /\ serialize_warning_message wm !! "category_module"
     = Some (match category wm with
             | Some c => PyStr (__module__ c)
             | None => PyNone
             end)
  /\ serialize_warning_message wm !! "category_class_name"
     = Some (match category wm with
             | Some c => PyStr (__name__ c)
             | None => PyNone
             end).
Proof.
  intros Hfree. unfold serialize_warning_message.
  assert (Hk : forall k, k ∈ fixed_keys -> k ∉ detail_names wm) by exact Hfree.
  unfold fixed_keys in Hk.
  repeat split; try intros s Hs; try rewrite Hs;
    destruct (message wm), (category wm); simpl;
    (rewrite details_lookup_out by (apply Hk; set_solver)); try done.
Qed.

(** X14: every value of a converted warning is one execnet encodes, for
    an encoder that knows [None] and the strings: what did not encode was
    replaced by one or the other. *)
Theorem converted_values_encode wm :
  is_Some (dumps PyNone) ->
  (forall s, is_Some (dumps (PyStr s))) ->
  forall k v, serialize_warning_message wm !! k = Some v -> is_Some (dumps v).
Proof.
  intros Hnone Hstr.
  assert (Hfold : forall l result,
    map_Forall (fun _ v => is_Some (dumps v)) result ->
    map_Forall (fun _ v => is_Some (dumps v))
      (foldl (serialize_detail wm) result l)).
  { induction l as [|n l IH]; intros result Hres; simpl; [done|].
    apply IH. unfold serialize_detail. case_bool_decide; [done|].
    destruct (dumps (getattr wm n)) eqn:Hd; by apply map_Forall_insert_2. }
  assert (Hargs : forall w,
    is_Some (dumps (match dumps (PyTuple (args w)) with
                    | Some _ => PyTuple (args w)
                    | None => PyNone
                    end))).
  { intros w. by destruct (dumps (PyTuple (args w))) eqn:Hd; [rewrite Hd|]. }
  unfold serialize_warning_message.
  destruct (message wm) as [w|s], (category wm); simpl;
    apply Hfold; repeat (apply map_Forall_insert_2; [done|]);
    apply map_Forall_empty.
Qed.

End ConversionFacts.

(** The options of a worker, as [setup_config] fixes them. *)
Lemma setup_config_lookup option basetemp k :
  setup_config option basetemp !! k
  = if bool_decide (k ∈ worker_options)
    then setup_config ∅ basetemp !! k
    else option !! k.
Proof.
  unfold setup_config, worker_options. case_bool_decide as Hk.
  - repeat (apply elem_of_cons in Hk as [->|Hk];
            [by repeat first [rewrite lookup_insert_eq
                             |rewrite lookup_insert_ne by discriminate]|]).
    by apply elem_of_nil in Hk.
  - repeat (apply not_elem_of_cons in Hk as [? Hk]).
    by repeat (rewrite lookup_insert_ne by done).
Qed.

(** X15: [setup_config] puts a worker out of distributed, looping and
    debugging mode whatever the options were, and touches no other
    option; set up twice, a configuration is as if set up once, with the
    later [basetemp]. *)
Theorem setup_config_overrides option basetemp :
  setup_config option basetemp !! "dist" = Some (PyStr "no")
  /\ setup_config option basetemp !! "numprocesses" = Some PyNone
  /\ setup_config option basetemp !! "maxprocesses" = Some PyNone
  /\ setup_config option basetemp !! "distload" = Some (PyBool false)
  /\ setup_config option basetemp !! "looponfail" = Some (PyBool false)
  /\ setup_config option basetemp !! "usepdb" = Some (PyBool false)
  /\ setup_config option basetemp !! "basetemp" = Some basetemp
  /\ (forall k, k ∉ worker_options ->
        setup_config option basetemp !! k = option !! k)
  /\ (forall basetemp',
        setup_config (setup_config option basetemp') basetemp
        = setup_config option basetemp).
Proof.
  do 7 (split; [by unfold setup_config;
                   repeat first [rewrite lookup_insert_eq
                                |rewrite lookup_insert_ne by discriminate]|]).
  split.
  - intros k Hk. rewrite setup_config_lookup. by rewrite bool_decide_eq_false_2.
  - intros basetemp'. apply map_eq. intros k.
    rewrite (setup_config_lookup (setup_config option basetemp') basetemp k).
    rewrite (setup_config_lookup option basetemp k).
    case_bool_decide as Hk; [done|].
    rewrite (setup_config_lookup option basetemp' k).
    by rewrite bool_decide_eq_false_2.
Qed.

Section HookFacts.
Context {E : Encoder} {F : Host}.

(** X16: a [warning_recorded] event has the four arguments [when],
    [nodeid], [location] and [warning_message_data], and the last is a
    mapping with the six fixed keys and the additional attributes of the
    record, whatever of the record could be encoded. *)
Theorem warning_recorded_event (w : WorkerInteractor) wm when nodeid location :
  exists kwargs d,
    sent (pytest_warning_recorded w wm when nodeid location)
    = sent w ++ [("warning_recorded", kwargs)]
    /\ dom kwargs = {[ "warning_message_data"; "when"; "nodeid"; "location" ]}
    /\ kwargs !! "when" = Some (PyStr when)
    /\ kwargs !! "nodeid" = Some (PyStr nodeid)
    /\ kwargs !! "location" = Some location
    /\ kwargs !! "warning_message_data" = Some (PyDict d)
    /\ d = serialize_warning_message wm
    /\ dom d = fixed_keys ∪ list_to_set (detail_names wm).
Proof.
  eexists _, _. split; [reflexivity|].
  split; [rewrite !dom_insert_L, dom_empty_L; set_solver|].
  split; [by rewrite lookup_insert_ne by done; rewrite lookup_insert_eq|].
  split; [by do 2 (rewrite lookup_insert_ne by done); rewrite lookup_insert_eq|].
  split; [by do 3 (rewrite lookup_insert_ne by done); rewrite lookup_insert_eq|].
  split; [by rewrite lookup_insert_eq|]. split; [reflexivity|].
  unfold serialize_warning_message, detail_names, fixed_keys.
  destruct (message wm), (category wm); simpl;
    rewrite details_dom, !dom_insert_L, dom_empty_L; set_solver.
Qed.

End HookFacts.

(** ** The theorems at work on a concrete session *)

#[local] Existing Instances Demo.encoder Demo.host.

Lemma demo_host_reports_on_item : reports_on_item Demo.host.
Proof.
  intros h item nextitem r Hr. simpl in Hr. unfold Demo.setup_call_teardown in Hr.
  repeat (apply elem_of_cons in Hr as [Hr|Hr]; [by simplify_eq|]).
  by apply elem_of_nil in Hr.
Defined.

Lemma demo_receives :
  receives Demo.worker [Demo.runtests [0; 1; 2]%Z] Demo.after_runtests [2%Z].
Proof.
  apply (receives_snoc _ [] Demo.worker [] _ _ _ (receives_nil _)).
  vm_compute. reflexivity.
Defined.

Lemma unencodable_values_degrade_witness :
  (dumps (PyTuple [PyStr "hello"; PyObject "file"]) = None
   /\ serialize_warning_message Demo.warning !! "message_args" = Some PyNone)
  /\ (dumps (getattr Demo.warning "file") = None
      /\ serialize_warning_message Demo.warning !! "file" = Some (PyStr "<stderr>")).
Proof.
  destruct (unencodable_values_degrade Demo.warning) as [Hargs Hattr].
  split; (split; [reflexivity|]).
  - apply (Hargs _ eq_refl); [reflexivity|].
    apply (bool_decide_unpack _). vm_compute. exact I.
  - apply (Hattr "file"); [|reflexivity].
    apply (bool_decide_unpack _). vm_compute. exact I.
Defined.

Lemma message_str_is_text_witness :
  ("message_str" ∉ detail_names Demo.warning)
  /\ serialize_warning_message Demo.warning !! "message_str"
     = Some (PyStr "('hello', <file>)").
Proof.
  assert (Hn : "message_str" ∉ detail_names Demo.warning).
  { apply (bool_decide_unpack _). vm_compute. exact I. }
  split; [exact Hn|]. exact (message_str_is_text Demo.warning Hn).
Defined.

Lemma lookahead_is_new_head_witness :
  run_one_test Demo.worker [0; 1]%Z = Ok (Demo.after_first, [1%Z])
  /\ exists item nextitem,
      getitem Demo.items 0 = Ok item
      /\ runs Demo.after_first
         = [{| run_queue := [0; 1]%Z; run_index := 0; run_item := item;
               run_nextitem := nextitem |}]
      /\ exists x, getitem Demo.items 1 = Ok x /\ nextitem = Some x.
Proof.
  assert (Hrun : run_one_test Demo.worker [0; 1]%Z = Ok (Demo.after_first, [1%Z])).
  { vm_compute. reflexivity. }
  split; [exact Hrun|].
  destruct (lookahead_is_new_head _ _ _ _ _ Hrun)
    as (_ & item & nextitem & Hitem & Hruns & _ & Hnext).
  exists item, nextitem. split; [exact Hitem|]. split; [exact Hruns|exact Hnext].
Defined.

Lemma testreport_correlation_witness :
  (pytest_runtest_logreport (set_item_index Demo.worker 1) Demo.report_b
   = Ok (sendevent (set_item_index Demo.worker 1) "testreport"
           {["data" := PyDict (<["testrun_uid" := PyStr "uid"]>
                               (<["worker_id" := PyStr "gw0"]>
                               (<["item_index" := PyInt 1]>
                               (pytest_report_to_serializable Demo.report_b))))]})
   /\ exists item, getitem Demo.items 1 = Ok item
                   /\ report_nodeid Demo.report_b = nodeid item)
  /\ (reports_on_item Demo.host
      /\ valid_index 3 0
      /\ exists w' evs,
          run_one_test Demo.worker [0; 1]%Z = Ok (w', [1%Z])
          /\ sent w' = evs
          /\ Forall (reports_index 0) evs
          /\ length (named "testreport" evs) = 3).
Proof.
  destruct (testreport_correlation (F := Demo.host)) as [Hone Hrun].
  split.
  - assert (Hok : pytest_runtest_logreport (set_item_index Demo.worker 1) Demo.report_b
                  = Ok (sendevent (set_item_index Demo.worker 1) "testreport"
                          {["data" := PyDict (<["testrun_uid" := PyStr "uid"]>
                                              (<["worker_id" := PyStr "gw0"]>
                                              (<["item_index" := PyInt 1]>
                                              (pytest_report_to_serializable Demo.report_b))))]})).
    { vm_compute. reflexivity. }
    split; [exact Hok|].
    destruct (Hone _ _ _ Hok) as (i & item & d & Hi & Hitem & Hid & _).
    injection Hi as <-. exists item. split; [exact Hitem|exact Hid].
  - split; [exact demo_host_reports_on_item|].
    assert (Hv0 : valid_index 3 0) by (unfold valid_index; lia).
    split; [exact Hv0|].
    destruct (Hrun demo_host_reports_on_item Demo.worker 0%Z [1%Z] Hv0)
      as (w' & r & evs & Hok & Hruns & Hi & Hitem & Hsent & Hevs & Hlen).
    { intros j [= <-]. unfold valid_index. cbn. lia. }
    exists w', evs. split; [exact Hok|]. split; [exact Hsent|]. split; [exact Hevs|].
    rewrite Hlen. reflexivity.
Defined.

Lemma end_of_stream_returns_cleanly_witness :
  receives Demo.worker [Demo.runtests [0; 1; 2]%Z] Demo.after_runtests [2%Z]
  /\ pytest_runtestloop Demo.worker [Demo.runtests [0; 1; 2]%Z]
     = Ok (true, Demo.after_runtests)
  /\ named "internal_error" (sent Demo.after_runtests) = [].
Proof.
  split; [exact demo_receives|].
  destruct (end_of_stream_returns_cleanly _ _ _ _ demo_receives) as (_ & Hret & Hnone).
  split; [exact Hret|exact Hnone].
Defined.

Lemma unknown_command_changes_nothing_witness :
  receives Demo.worker [Demo.runtests [0; 1; 2]%Z] Demo.after_runtests [2%Z]
  /\ ~ known_command "ping"
  /\ loop_body Demo.after_runtests [2%Z] ("ping", ∅)
     = Ok (Continue, Demo.after_runtests, [2%Z]).
Proof.
  assert (Hname : ~ known_command "ping").
  { intros [H|[H|H]]; discriminate H. }
  split; [exact demo_receives|]. split; [exact Hname|].
  destruct (unknown_command_changes_nothing _ _ _ _ "ping" ∅ demo_receives Hname)
    as (_ & Hbody & _).
  exact Hbody.
Defined.

Lemma runs_wait_for_two_or_shutdown_witness :
  run_loop [Demo.runtests_all; Demo.shutdown; Demo.runtests [1%Z]] Demo.worker []
  = Ok (Demo.after_shutdown, [], [Demo.runtests [1%Z]])
  /\ exists big r,
      runs Demo.after_shutdown = big ++ [r]
      /\ Forall (sound_run Demo.items) (big ++ [r])
      /\ hook Demo.after_shutdown = framework_after 0 (big ++ [r])
      /\ (exists blocks : list run_block,
            (fun b => b.1.1) <$> blocks = big ++ [r]
            /\ sent Demo.after_shutdown = concat (block_events <$> blocks)
            /\ Forall block_ok blocks)
      /\ Forall (fun r => eager r /\ run_nextitem r <> None) big
      /\ final r
      /\ exists pre c,
          [Demo.runtests_all; Demo.shutdown; Demo.runtests [1%Z]]
          = pre ++ c :: [Demo.runtests [1%Z]]
          /\ is_shutdown c = true
          /\ shutdown_received pre = false.
Proof.
  assert (Hloop :
    run_loop [Demo.runtests_all; Demo.shutdown; Demo.runtests [1%Z]] Demo.worker []
    = Ok (Demo.after_shutdown, [], [Demo.runtests [1%Z]])).
  { vm_compute. reflexivity. }
  split; [exact Hloop|].
  destruct (runs_wait_for_two_or_shutdown _ _ _ _ _ Hloop)
    as (big & fin & Hruns & Hsound & Hhook & Hblocks & Hbig
        & [[_ Hnil]|(r & -> & Hr)] & _ & Hcmds).
  - vm_compute in Hnil. discriminate Hnil.
  - exists big, r. split; [exact Hruns|]. split; [exact Hsound|].
    split; [exact Hhook|]. split; [exact Hblocks|]. split; [exact Hbig|].
    split; [exact Hr|exact Hcmds].
Defined.

Lemma drained_in_fifo_order_witness :
  run_loop [Demo.runtests [2; 0]%Z; Demo.shutdown] Demo.worker []
  = Ok (Demo.after_two, [], [])
  /\ exists rs,
      runs Demo.after_two = rs
      /\ Forall (sound_run Demo.items) rs
      /\ run_index <$> rs = [2; 0]%Z.
Proof.
  assert (Hloop : run_loop [Demo.runtests [2; 0]%Z; Demo.shutdown] Demo.worker []
                  = Ok (Demo.after_two, [], [])).
  { vm_compute. reflexivity. }
  split; [exact Hloop|].
  destruct (drained_in_fifo_order _ _ _ _ _ Hloop) as (rs & Hruns & Hsound & Hq & _).
  exists rs. split; [exact Hruns|]. split; [exact Hsound|].
  rewrite app_nil_r in Hq. exact Hq.
Defined.

(** C1 as the specification has it fails: after [runtests [0; 1; 2]] the
    channel is closed, the loop returns, and index 2, appended to the queue,
    was never run. *)
Lemma last_index_left_when_stream_ends :
  ~ every_index_drained Demo.worker [Demo.runtests [0; 1; 2]%Z].
Proof.
  intros Hall.
  specialize (Hall Demo.after_runtests [2%Z] []).
  assert (Hloop : run_loop [Demo.runtests [0; 1; 2]%Z] Demo.worker []
                  = Ok (Demo.after_runtests, [2%Z], [])).
  { vm_compute. reflexivity. }
  specialize (Hall Hloop). vm_compute in Hall. discriminate Hall.
Qed.

(** The end-to-end scenarios of the specification. *)

Example scenario1 :
  Demo.summary (run_loop [Demo.runtests_all; Demo.shutdown] Demo.worker [])
  = Ok ([(0%Z, Some {| nodeid := "test_b" |});
         (1%Z, Some {| nodeid := "test_c" |}); (2%Z, None)], [], []).
Proof. vm_compute. reflexivity. Qed.

Example scenario1_before_shutdown :
  Demo.summary (run_loop [Demo.runtests_all] Demo.worker [])
  = Ok ([(0%Z, Some {| nodeid := "test_b" |});
         (1%Z, Some {| nodeid := "test_c" |})], [2%Z], []).
Proof. vm_compute. reflexivity. Qed.

Example scenario2 :
  Demo.summary (run_loop [Demo.runtests [2; 0]%Z; Demo.shutdown] Demo.worker [])
  = Ok ([(2%Z, Some {| nodeid := "test_a" |}); (0%Z, None)], [], []).
Proof. vm_compute. reflexivity. Qed.

Example scenario3 :
  serialize_warning_message Demo.warning !! "message_args" = Some PyNone
  /\ serialize_warning_message Demo.warning !! "message_str"
     = Some (PyStr "('hello', <file>)")
  /\ serialize_warning_message Demo.warning !! "file" = Some (PyStr "<stderr>")
  /\ serialize_warning_message Demo.warning !! "lineno" = Some (PyInt 3).
Proof. vm_compute. repeat split. Qed.

(** After [runtests_all] and [shutdown] on the plan of three the framework
    has run three items, and the channel has the six events of each. *)
Example framework_ran_three_items :
  hook Demo.after_shutdown = 3
  /\ length (sent Demo.after_shutdown) = 18
  /\ length (named "runtest_protocol_complete" (sent Demo.after_shutdown)) = 3.
Proof. vm_compute. repeat split. Qed.

(** An index outside the plan ends the loop with [IndexError]; a framework
    that reports on another item than the one it was given trips the
    assertion. *)
Example index_outside_plan :
  Demo.summary (run_loop [Demo.runtests [0; 7]%Z; Demo.shutdown] Demo.worker [])
  = Raise IndexError.
Proof. vm_compute. reflexivity. Qed.

Example assertion_trips :
  res_map (fun _ => tt)
    (run_one_test (F := Demo.confused_host) Demo.confused_worker [0%Z])
  = Raise AssertionError.
Proof. vm_compute. reflexivity. Qed.

(** ** The further facts at work *)

Lemma demo_first_run :
  run_one_test Demo.worker [0; 1]%Z = Ok (Demo.after_first, [1%Z]).
Proof. vm_compute. reflexivity. Defined.

Lemma demo_full_session :
  run_loop [Demo.runtests_all; Demo.shutdown] Demo.worker []
  = Ok (Demo.after_shutdown, [], []).
Proof. vm_compute. reflexivity. Defined.

Lemma demo_two_session :
  run_loop [Demo.runtests [2; 0]%Z; Demo.shutdown] Demo.worker []
  = Ok (Demo.after_two, [], []).
Proof. vm_compute. reflexivity. Defined.

Lemma demo_logreport :
  pytest_runtest_logreport (set_item_index Demo.worker 1) Demo.report_b
  = Ok (sendevent (set_item_index Demo.worker 1) "testreport"
          {["data" := PyDict (<["testrun_uid" := PyStr "uid"]>
                              (<["worker_id" := PyStr "gw0"]>
                              (<["item_index" := PyInt 1]>
                              (pytest_report_to_serializable Demo.report_b))))]}).
Proof. vm_compute. reflexivity. Defined.

Lemma completion_event_closes_run_witness :
  run_one_test Demo.worker [0; 1]%Z = Ok (Demo.after_first, [1%Z])
  /\ exists cevs duration,
      sent Demo.after_first
      = sent Demo.worker ++ cevs
        ++ [("runtest_protocol_complete",
             <["item_index" := PyInt 0]> (<["duration" := duration]> ∅))]
      /\ Forall (fun ev => ev.1 ∈ callback_event_names) cevs.
Proof.
  split; [exact demo_first_run|].
  exact (completion_event_closes_run _ _ _ _ _ demo_first_run).
Defined.

Lemma events_come_run_by_run_witness :
  run_loop [Demo.runtests_all; Demo.shutdown] Demo.worker []
  = Ok (Demo.after_shutdown, [], [])
  /\ exists blocks : list run_block,
      runs Demo.after_shutdown = (fun b => b.1.1) <$> blocks
      /\ sent Demo.after_shutdown = concat (block_events <$> blocks)
      /\ Forall block_ok blocks.
Proof.
  split; [exact demo_full_session|].
  exact (events_come_run_by_run _ _ _ _ _ demo_full_session).
Defined.

Lemma item_index_is_last_run_witness :
  run_loop [Demo.runtests [2; 0]%Z; Demo.shutdown] Demo.worker []
  = Ok (Demo.after_two, [], [])
  /\ item_index Demo.after_two = Some 0%Z.
Proof.
  split; [exact demo_two_session|].
  destruct (item_index_is_last_run _ _ _ _ _ demo_two_session)
    as (rs & Hruns & Hindex).
  simpl in Hruns. subst rs. exact Hindex.
Defined.





Lemma runtests_without_indices_raises_witness :
  receives Demo.worker [Demo.runtests [0; 1; 2]%Z] Demo.after_runtests [2%Z]
  /\ (∅ : gmap string (list Z)) !! "indices" = None
  /\ run_loop [Demo.runtests [0; 1; 2]%Z; ("runtests", ∅); Demo.shutdown]
       Demo.worker []
     = Raise KeyError.
Proof.
  split; [exact demo_receives|]. split; [reflexivity|].
  exact (runtests_without_indices_raises _ _ _ _ ∅ [Demo.shutdown]
           demo_receives eq_refl).
Defined.

Lemma logreport_succeeds_iff_witness :
  item_index Demo.worker = None
  /\ pytest_runtest_logreport Demo.worker Demo.report_b = Raise AttributeError
  /\ pytest_runtest_logreport (set_item_index Demo.worker 0) Demo.report_b
     = Raise AssertionError.
Proof.
  split; [reflexivity|]. split.
  - destruct (logreport_succeeds_iff Demo.worker Demo.report_b) as (_ & Hattr & _).
    exact (Hattr eq_refl).
  - destruct (logreport_succeeds_iff (set_item_index Demo.worker 0) Demo.report_b)
      as (_ & _ & Hassert).
    apply (Hassert 0%Z {| nodeid := "test_a" |}); [reflexivity|reflexivity|].
    intros Hid. discriminate Hid.
Defined.

Lemma testreport_data_witness :
  pytest_runtest_logreport (set_item_index Demo.worker 1) Demo.report_b
  = Ok (sendevent (set_item_index Demo.worker 1) "testreport"
          {["data" := PyDict (<["testrun_uid" := PyStr "uid"]>
                              (<["worker_id" := PyStr "gw0"]>
                              (<["item_index" := PyInt 1]>
                              (pytest_report_to_serializable Demo.report_b))))]})
  /\ exists d : gmap string pyobj,
      d !! "item_index" = Some (PyInt 1)
      /\ d !! "worker_id" = Some (PyStr "gw0")
      /\ d !! "testrun_uid" = Some (PyStr "uid")
      /\ d !! "nodeid" = Some (PyStr "test_b").
Proof.
  split; [exact demo_logreport|].
  destruct (testreport_data _ _ _ demo_logreport)
    as (i & d & Hi & _ & Hindex & Hworker & Hrun & Hrest).
  injection Hi as <-. exists d.
  split; [exact Hindex|]. split; [exact Hworker|]. split; [exact Hrun|].
  rewrite (Hrest "nodeid"); [reflexivity|].
  apply (bool_decide_unpack _). vm_compute. exact I.
Defined.

Lemma testreport_index_addresses_ids_witness :
  session_items (set_item_index Demo.worker 1) = session_items Demo.worker
  /\ exists kwargs : gmap string pyobj,
      sent (pytest_collection_finish Demo.worker "/repo")
      = [("collectionfinish", kwargs)]
      /\ kwargs !! "ids"
         = Some (PyList [PyStr "test_a"; PyStr "test_b"; PyStr "test_c"])
      /\ getitem (collection_ids Demo.items) 1 = Ok (PyStr "test_b").
Proof.
  split; [reflexivity|].
  destruct (testreport_index_addresses_ids Demo.worker "/repo"
              (set_item_index Demo.worker 1) _ _ eq_refl demo_logreport)
    as (kwargs & i & Hsent & Hids & Hi & Hget).
  injection Hi as <-. exists kwargs.
  split; [exact Hsent|]. split; [exact Hids|exact Hget].
Defined.

Lemma commands_after_shutdown_ignored_witness :
  is_shutdown Demo.shutdown = true
  /\ pytest_runtestloop Demo.worker
       [Demo.runtests_all; Demo.shutdown; Demo.runtests [1%Z]]
     = pytest_runtestloop Demo.worker [Demo.runtests_all; Demo.shutdown].
Proof.
  split; [reflexivity|].
  exact (commands_after_shutdown_ignored [Demo.runtests_all] Demo.shutdown
           [Demo.runtests [1%Z]] Demo.worker eq_refl).
Defined.

Lemma encodable_values_pass_through_witness :
  (dumps (PyTuple [PyStr "old"]) = Some []
   /\ serialize_warning_message DemoMore.plain_warning !! "message_args"
      = Some (PyTuple [PyStr "old"]))
  /\ (dumps (getattr DemoMore.plain_warning "lineno") = Some []
      /\ serialize_warning_message DemoMore.plain_warning !! "lineno"
         = Some (PyInt 7)).
Proof.
  destruct (encodable_values_pass_through DemoMore.plain_warning) as [Hargs Hattr].
  split; (split; [reflexivity|]).
  - apply (Hargs _ [] eq_refl); [reflexivity|].
    apply (bool_decide_unpack _). vm_compute. exact I.
  - apply (Hattr "lineno" []); [|reflexivity].
    apply (bool_decide_unpack _). vm_compute. exact I.
Defined.

Lemma demo_text_warning_no_collision : no_collision DemoMore.text_warning.
Proof.
  intros k Hk Hin. unfold fixed_keys in Hk.
  change (detail_names DemoMore.text_warning) with ["filename"; "lineno"] in Hin.
  apply elem_of_cons in Hin as [->|Hin];
    [|apply elem_of_cons in Hin as [->|Hin]; [|by apply elem_of_nil in Hin]];
    set_solver.
Defined.

Lemma warning_origin_fields_witness :
  no_collision DemoMore.text_warning
  /\ serialize_warning_message DemoMore.text_warning !! "message_module"
     = Some PyNone
  /\ serialize_warning_message DemoMore.text_warning !! "message_args"
     = Some PyNone
  /\ serialize_warning_message DemoMore.text_warning !! "category_class_name"
     = Some PyNone.
Proof.
  split; [exact demo_text_warning_no_collision|].
  destruct (warning_origin_fields DemoMore.text_warning
              demo_text_warning_no_collision)
    as (Hmod & _ & Hargs & _ & Hcat).
  split; [exact Hmod|]. split; [exact (Hargs _ eq_refl)|exact Hcat].
Defined.

Lemma converted_values_encode_witness :
  is_Some (dumps PyNone)
  /\ (forall s, is_Some (dumps (PyStr s)))
  /\ serialize_warning_message Demo.warning !! "file" = Some (PyStr "<stderr>")
  /\ is_Some (dumps (PyStr "<stderr>")).
Proof.
  assert (Hnone : is_Some (dumps PyNone)) by (by eexists).
  assert (Hstr : forall s, is_Some (dumps (PyStr s))) by (intros s; by eexists).
  split; [exact Hnone|]. split; [exact Hstr|].
  assert (Hfile : serialize_warning_message Demo.warning !! "file"
                  = Some (PyStr "<stderr>")) by (vm_compute; reflexivity).
  split; [exact Hfile|].
  exact (converted_values_encode Demo.warning Hnone Hstr _ _ Hfile).
Defined.
